(** * SentinelOne MCP server: the Deep Visibility hash hunt and its request layer

    A shallow embedding of
      - [src/client/rest.ts]: the bounded request executor [request] and
        the three Deep Visibility calls built on it;
      - [src/client/types.ts]: the Deep Visibility records the handler reads;
      - [src/tools/hash.ts]: [summarizeHashEvent] and [handleHashLookup], the
        create / poll / fetch lifecycle of one Deep Visibility query.

    JavaScript strings are modelled as [string] (sequences of 8-bit code
    units), thrown values as [Thrown], promises by the value or the thrown
    value they settle to, and the effects of an [async] function by a small
    state-and-exception monad [Eff].  The definitions come first, module by
    module; the properties follow in [RestProofs], [HashProofs],
    [HashCoverage] and [ClientProofs]. *)

From Stdlib Require Import String Ascii List Arith NArith Bool Lia DecimalString.
From Equations Require Import Equations.
Import ListNotations.
Local Open Scope list_scope.
Local Open Scope string_scope.

(** ** JavaScript values and strings *)

Module JS.

(** A thrown value: an [Error] object (this includes [TypeError],
    [SyntaxError] and [DOMException], which all pass [instanceof Error]), or
    any other value, kept by what [String(v)] renders. *)
Inductive Thrown : Type :=
| ErrorObj (name message : string)
| NonError (shown : string).

(** [error instanceof Error ? error.message : String(error)] *)
Definition errorText (error : Thrown) : string :=
  match error with
  | ErrorObj _ message => message
  | NonError shown => shown
  end.

(** [error instanceof Error && error.name === "AbortError"] *)
Definition isAbortError (error : Thrown) : bool :=
  match error with
  | ErrorObj name _ => String.eqb name "AbortError"
  | NonError _ => false
  end.

(** [hay.includes(needle)] *)
Fixpoint includes (needle hay : string) : bool :=
  prefix needle hay
  || match hay with
     | EmptyString => false
     | String _ rest => includes needle rest
     end.

(** A number rendered by a template literal: decimal digits. *)
Definition show (n : N) : string := NilEmpty.string_of_uint (N.to_uint n).
Definition showNat (n : nat) : string := show (N.of_nat n).

(** [s.slice(0, n)] on a string, [n >= 0].  The cut counts the 8-bit units
    of the model: on ASCII text these are the UTF-16 code units that [slice]
    counts; on other text, read as UTF-8, the two cuts can differ. *)
Fixpoint slice0 (n : nat) (s : string) : string :=
  match n, s with
  | S n', String c rest => String c (slice0 n' rest)
  | _, _ => EmptyString
  end.

(** [xs.join(sep)] *)
Fixpoint join (sep : string) (xs : list string) : string :=
  match xs with
  | [] => EmptyString
  | [x] => x
  | x :: rest => x ++ sep ++ join sep rest
  end.

(** [v || dflt] for an optional string property of an object read from
    JSON: [None] is [undefined]; a missing and an empty string are falsy. *)
Definition orElse (v : option string) (dflt : string) : string :=
  match v with
  | Some (String c rest) => String c rest
  | _ => dflt
  end.

Definition newline : string := String (ascii_of_nat 10) EmptyString.
Definition dquote : string := String (ascii_of_nat 34) EmptyString.

End JS.
Import JS.

(** ** Effects: state passing with exceptions *)

Inductive Outcome (A : Type) : Type :=
| Returns (a : A)
| Throws (e : Thrown).
Arguments Returns {A} a.
Arguments Throws {A} e.

Definition Eff (S A : Type) : Type := S -> Outcome A * S.

Definition ret {S A} (a : A) : Eff S A := fun s => (Returns a, s).

Definition throw {S A} (e : Thrown) : Eff S A := fun s => (Throws e, s).

Definition bind {S A B} (m : Eff S A) (k : A -> Eff S B) : Eff S B :=
  fun s =>
    match m s with
    | (Returns a, s') => k a s'
    | (Throws e, s') => (Throws e, s')
    end.

(** [try { m } catch (e) { handler(e) }] *)
Definition tryCatch {S A} (m : Eff S A) (handler : Thrown -> Eff S A) : Eff S A :=
  fun s =>
    match m s with
    | (Returns a, s') => (Returns a, s')
    | (Throws e, s') => handler e s'
    end.

(** [try { m } finally { cleanup }], for a [cleanup] that does not throw
    and has no [return] of its own. *)
Definition tryFinally {S A} (m : Eff S A) (cleanup : S -> S) : Eff S A :=
  fun s => let (o, s') := m s in (o, cleanup s').

Declare Scope eff_scope.
Delimit Scope eff_scope with eff.
Notation "x <- c1 ;; c2" := (bind c1 (fun x => c2))
  (at level 61, c1 at next level, right associativity) : eff_scope.
Notation "c1 ;;; c2" := (bind c1 (fun _ => c2))
  (at level 61, right associativity) : eff_scope.
Local Open Scope eff_scope.

(** ** The bounded request executor ([src/client/rest.ts]) *)

Module Rest.

Definition TIMEOUT_MS : N := 30000.

(** The timer table of the event loop: the ids handed out so far and the
    timers still pending (neither fired nor cleared). *)
Record Timers : Type := mkTimers { nextTimerId : nat; pending : list nat }.

(** [setTimeout(callback, ms)]: a fresh id, now pending. *)
Definition setTimeout : Eff Timers nat :=
  fun t =>
    (Returns (nextTimerId t),
     mkTimers (S (nextTimerId t)) (nextTimerId t :: pending t)).

(** [clearTimeout(id)]: the timer is no longer pending; clearing a timer that
    fired already changes nothing. *)
Definition clearTimeout (id : nat) (t : Timers) : Timers :=
  mkTimers (nextTimerId t) (remove Nat.eq_dec id (pending t)).

(** The timer's callback has run: it is no longer pending. *)
Definition fired (id : nat) (t : Timers) : Timers :=
  mkTimers (nextTimerId t) (remove Nat.eq_dec id (pending t)).

(** What the network does with one call, left to itself: every promise
    settles after some milliseconds, to a value or to a thrown value. *)
Inductive Settles (A : Type) : Type :=
| After (ms : N) (o : Outcome A).
Arguments After {A} ms o.

(** A [Response]: the status line, and what reading the body as text and
    as JSON settles to. *)
Record Response (T : Type) : Type := mkResponse {
  status : N;
  statusText : string;
  text : Settles string;
  json : Settles T
}.
Arguments mkResponse {T}.
Arguments status {T}.
Arguments statusText {T}.
Arguments text {T}.
Arguments json {T}.

(** [response.ok]: the status is in the range 200-299 (Fetch standard). *)
Definition ok {T} (response : Response T) : bool :=
  ((200 <=? status response) && (status response <=? 299))%N.

Definition Exchange (T : Type) : Type := Settles (Response T).

(** The [AbortError] a promise tied to an aborted signal rejects with. *)
Definition abortError : Thrown := ErrorObj "AbortError" "This operation was aborted".

(** Awaiting a promise tied to [controller.signal], [elapsed] milliseconds
    after the timer was armed.  If the promise settles before the timer is
    due, the await yields what it settled to; otherwise the timer fires
    first, its callback aborts the controller, and the promise rejects with
    an [AbortError]. *)
Definition awaitWithSignal {A} (timeoutId : nat) (elapsed : N) (p : Settles A)
  : Eff Timers (A * N) :=
  match p with
  | After ms o =>
      if (elapsed + ms <? TIMEOUT_MS)%N then
        match o with
        | Returns a => ret (a, (elapsed + ms)%N)
        | Throws e => throw e
        end
      else
        fun t => (Throws abortError, fired timeoutId t)
  end.

Section Request.

(** [sanitizeError] of [src/utils.ts] is not part of the available
    sources: it is a parameter of the request layer. *)
Variable sanitizeError : Thrown -> string.

Definition timeoutMessage : string :=
  "Request timeout after " ++ show TIMEOUT_MS ++ "ms".

Definition httpErrorMessage (code : N) (reason errorBody : string) : string :=
  "HTTP " ++ show code ++ ": " ++ reason ++ " - " ++ errorBody.

(** [request<T>(endpoint, options)]; the exchange [x] is what the network
    does with the URL, method, headers and body of the call.  The
    configuration is validated when the server starts ([src/index.ts]);
    reading it and building the URL are not modelled. *)
Definition request {T} (x : Exchange T) : Eff Timers T :=
  timeoutId <- setTimeout ;;
  tryFinally
    (tryCatch
       (r <- awaitWithSignal timeoutId 0%N x ;;
        let (response, t1) := r in
        if negb (ok response) then
          b <- awaitWithSignal timeoutId t1 (text response) ;;
          throw (ErrorObj "Error"
                   (httpErrorMessage (status response) (statusText response) (fst b)))
        else
          v <- awaitWithSignal timeoutId t1 (json response) ;;
          ret (fst v))
       (fun error =>
          if isAbortError error then throw (ErrorObj "Error" timeoutMessage)
          else throw (ErrorObj "Error" (sanitizeError error))))
    (clearTimeout timeoutId).

(** *** The three failure kinds, in the words of the specification

    A second description of one call, to compare [request] with: the call
    times out when the 30-second bound elapses before it completes; a
    response with a status outside 200-299 is an HTTP error with its status
    code and body text; anything else that goes wrong is another failure;
    a 2xx response yields its parsed JSON body. *)

Inductive Failure : Type :=
| Timeout
| HttpError (code : N) (reason errorBody : string)
| OtherFailure (cause : Thrown).

(** The body read the call needs: the text of an error response, the JSON
    of a 2xx response. Only its duration matters here. *)
Definition bodyReadMs {T} (response : Response T) : N :=
  if ok response
  then match json response with After ms _ => ms end
  else match text response with After ms _ => ms end.

(** The bound elapses before the call completes. *)
Definition boundElapses {T} (x : Exchange T) : bool :=
  match x with
  | After ms (Throws _) => (TIMEOUT_MS <=? ms)%N
  | After ms (Returns response) =>
      (TIMEOUT_MS <=? ms)%N || (TIMEOUT_MS <=? ms + bodyReadMs response)%N
  end.

(** A failure raised by the network itself: an [AbortError] counts as the
    timeout, whatever raised it. *)
Definition ofThrown (e : Thrown) : Failure :=
  if isAbortError e then Timeout else OtherFailure e.

Definition classify {T} (x : Exchange T) : T + Failure :=
  if boundElapses x then inr Timeout
  else
    match x with
    | After _ (Throws e) => inr (ofThrown e)
    | After _ (Returns response) =>
        if ok response then
          match json response with
          | After _ (Returns v) => inl v
          | After _ (Throws e) => inr (ofThrown e)
          end
        else
          match text response with
          | After _ (Returns errorBody) =>
              inr (HttpError (status response) (statusText response) errorBody)
          | After _ (Throws e) => inr (ofThrown e)
          end
    end.

(** What the caller of [request] gets for each kind. *)
Definition render (f : Failure) : Thrown :=
  match f with
  | Timeout => ErrorObj "Error" timeoutMessage
  | HttpError code reason errorBody =>
      ErrorObj "Error"
        (sanitizeError (ErrorObj "Error" (httpErrorMessage code reason errorBody)))
  | OtherFailure cause => ErrorObj "Error" (sanitizeError cause)
  end.

(** The kind of a failure as a caller is meant to tell it: a timeout, an
    HTTP error with its numeric status code, or another failure. *)
Inductive Kind : Type :=
| KTimeout
| KHttp (code : N)
| KOther.

(** The kind of a failed call in the words of the specification: a timeout
    when the bound elapses, an HTTP error whenever the status is outside
    200-299, another failure otherwise; [None] for a call that succeeds. *)
Definition statedKind {T} (x : Exchange T) : option Kind :=
  if boundElapses x then Some KTimeout
  else
    match x with
    | After _ (Throws e) => Some (if isAbortError e then KTimeout else KOther)
    | After _ (Returns response) =>
        if ok response then
          match json response with
          | After _ (Returns _) => None
          | After _ (Throws e) => Some (if isAbortError e then KTimeout else KOther)
          end
        else Some (KHttp (status response))
    end.

(** The kind of a failed call by the branch of [classify] it takes: here a
    response outside 200-299 whose body text cannot be read counts as
    another failure. *)
Definition classifiedKind {T} (x : Exchange T) : option Kind :=
  match classify x with
  | inl _ => None
  | inr Timeout => Some KTimeout
  | inr (HttpError code _ _) => Some (KHttp code)
  | inr (OtherFailure _) => Some KOther
  end.

(** The kinds are distinguishable by the caller: some reading [tell] of the
    thrown value recovers the kind of every failed call. *)
Definition kindsToldApart (kind : Exchange unit -> option Kind) : Prop :=
  exists tell : Thrown -> Kind,
    forall (x : Exchange unit) (t : Timers) (e : Thrown),
      fst (request x t) = Throws e -> kind x = Some (tell e).

End Request.

(** *** Sample exchanges *)

(** A sanitizer for examples: the message as it is. *)
Definition plainSanitizer (e : Thrown) : string := errorText e.

(** HTTP 500 with the body text [boom], 120 ms + 5 ms. *)
Definition http500 : Exchange unit :=
  After 120 (Returns (mkResponse 500 "Internal Server Error"
                        (After 5 (Returns "boom"))
                        (After 5 (Throws (ErrorObj "SyntaxError" "Unexpected token")))))%N.

(** A transport failure whose message reads like that HTTP error. *)
Definition transportLookalike : Exchange unit :=
  After 120 (Throws (ErrorObj "Error" "HTTP 500: Internal Server Error - boom"))%N.

(** HTTP 500 and HTTP 404 whose body cannot be read: the connection drops
    while the error body is being received. *)
Definition connectionReset : Thrown := ErrorObj "TypeError" "terminated".

Definition http500Reset : Exchange unit :=
  After 120 (Returns (mkResponse 500 "Internal Server Error"
                        (After 5 (Throws connectionReset))
                        (After 5 (Throws connectionReset))))%N.

Definition http404Reset : Exchange unit :=
  After 120 (Returns (mkResponse 404 "Not Found"
                        (After 5 (Throws connectionReset))
                        (After 5 (Throws connectionReset))))%N.

(** HTTP 409, the answer of a busy query slot. *)
Definition http409 : Exchange unit :=
  After 90 (Returns (mkResponse 409 "Conflict"
                       (After 4 (Returns "query slot in use"))
                       (After 4 (Throws (ErrorObj "SyntaxError" "Unexpected token")))))%N.

(** HTTP 200 whose JSON body parses, 80 ms + 3 ms. *)
Definition http200 : Exchange unit :=
  After 80 (Returns (mkResponse 200 "OK"
                       (After 3 (Returns "{}"))
                       (After 3 (Returns tt))))%N.

(** No answer within the bound. *)
Definition stalled : Exchange unit :=
  After 45000 (Throws (ErrorObj "TypeError" "fetch failed"))%N.

Definition noTimers : Timers := mkTimers 0 [].

End Rest.

(** ** Deep Visibility data ([src/client/types.ts]) *)

Module Types.

(** [DVQueryResponse]: what query creation answers. *)
Record DVQueryResponse : Type := mkDVQueryResponse {
  queryId : string;
  createdStatus : string   (* the field [status]; never read by the handler *)
}.

(** [DVQueryStatus], as far as the handler reads it: its variable [status]
    has the type [{ status: string; responseError?: string }]. *)
Record DVQueryStatus : Type := mkDVQueryStatus {
  status : string;
  responseError : option string
}.

(** One event, read by the handler as a [Record<string, any>]: the
    properties it looks at, [None] for a missing one. *)
Record DVEvent : Type := mkDVEvent {
  eventTime : option string;
  eventType : option string;
  processName : option string;
  agentName : option string;
  processUser : option string;
  user : option string;
  filePath : option string;
  processCommandLine : option string
}.

Record Pagination : Type := mkPagination {
  nextCursor : option string;
  totalItems : option N
}.

(** [PaginatedResponse<DVEvent>]; the handler reads [data] with [?.], so a
    missing [data] is modelled too. *)
Record PaginatedResponse : Type := mkPaginatedResponse {
  data : option (list DVEvent);
  pagination : option Pagination
}.

End Types.
Import Types.

(** ** The hash hunt ([src/tools/hash.ts]) *)

Module Hash.

(** What the handler does to the outside world, in order. *)
Inductive Effect : Type :=
| CreateDVQuery (query fromDate toDate : string)
| GetDVQueryStatus (queryId : string)
| GetDVEvents (queryId : string) (limit : nat)
| Wait (ms : N).   (* [await new Promise((resolve) => setTimeout(resolve, ms))] *)

Definition Trace : Type := list Effect.

Definition isCreate (e : Effect) : bool :=
  match e with CreateDVQuery _ _ _ => true | _ => false end.
Definition isStatus (e : Effect) : bool :=
  match e with GetDVQueryStatus _ => true | _ => false end.
Definition isEvents (e : Effect) : bool :=
  match e with GetDVEvents _ _ => true | _ => false end.

Definition count (p : Effect -> bool) (tr : Trace) : nat := length (filter p tr).

(** The remote platform and the clock during one invocation: what the n-th
    call of each client function settles to (a returned value or a thrown
    one), and the two ISO renderings of the time range.  The handler is
    deterministic in these answers, so every run of it is the run against
    some [Remote].  [createDVQuery] returns the [data] property of what
    [request] parsed and [getDVEvents] returns what [request] parsed, so
    either may return a falsy value, which the handler tests for: [None].
    A status answer is taken to be an object of the declared type. *)
Record Remote : Type := mkRemote {
  createAnswer : nat -> Outcome (option DVQueryResponse);
  statusAnswer : nat -> Outcome DVQueryStatus;
  eventsAnswer : nat -> Outcome (option PaginatedResponse);
  toDate : string;     (* [new Date().toISOString()] *)
  fromDate : string    (* 14 days earlier *)
}.

(** The tool result: one text item, and the [isError] flag ([false] when
    the property is absent). *)
Inductive Content : Type :=
| TextContent (text : string).

Record ToolResult : Type := mkToolResult {
  content : list Content;
  isError : bool
}.

Definition textResult (text : string) : ToolResult := mkToolResult [TextContent text] false.
Definition errorResult (text : string) : ToolResult := mkToolResult [TextContent text] true.

(** [/^[a-fA-F0-9]+$/.test(s)] *)
Definition isHexDigit (c : ascii) : bool :=
  let n := nat_of_ascii c in
  (((48 <=? n) && (n <=? 57)) || ((65 <=? n) && (n <=? 70))
   || ((97 <=? n) && (n <=? 102)))%nat.

Fixpoint allHex (s : string) : bool :=
  match s with
  | EmptyString => true
  | String c rest => isHexDigit c && allHex rest
  end.

Definition hexOnly (s : string) : bool :=
  match s with
  | EmptyString => false
  | String _ _ => allHex s
  end.

Definition maxCreateRetries : nat := 6.
Definition maxAttempts : nat := 30.
Definition maxFetchRetries : nat := 5.

Section Handler.

Variable R : Remote.

(** [formatTimeAgo] and [truncatePath] of [src/utils.ts] are not part of
    the available sources: parameters of the summary. *)
Variable formatTimeAgo : string -> string.
Variable truncatePath : string -> nat -> string.

Definition createDVQuery (query from to : string) : Eff Trace (option DVQueryResponse) :=
  fun tr => (createAnswer R (count isCreate tr), (tr ++ [CreateDVQuery query from to])%list).

Definition getDVQueryStatus (queryId : string) : Eff Trace DVQueryStatus :=
  fun tr => (statusAnswer R (count isStatus tr), (tr ++ [GetDVQueryStatus queryId])%list).

Definition getDVEvents (queryId : string) (limit : nat) : Eff Trace (option PaginatedResponse) :=
  fun tr => (eventsAnswer R (count isEvents tr), (tr ++ [GetDVEvents queryId limit])%list).

Definition wait (ms : N) : Eff Trace unit :=
  fun tr => (Returns tt, (tr ++ [Wait ms])%list).

#[local] Arguments Nat.sub : simpl never.

(** The creation loop, entered with [createAttempts]; it yields the value
    of [result] when the loop is left. *)
Equations? createLoop (dvQuery : string) (createAttempts : nat)
  : Eff Trace (option DVQueryResponse)
  by wf (maxCreateRetries - createAttempts) lt :=
createLoop dvQuery createAttempts with lt_dec createAttempts maxCreateRetries := {
  | left _ =>
      tryCatch
        (createDVQuery dvQuery (fromDate R) (toDate R))
        (fun createError =>
           let msg := errorText createError in
           if includes "409" msg && (createAttempts <? maxCreateRetries - 1)%nat then
             wait 3000 ;;; createLoop dvQuery (createAttempts + 1)
           else throw createError)
  | right _ => ret None }.
Proof. lia. Qed.

(** The polling loop, entered with [attempts] and the last [status] seen;
    it yields the value of [status] when the loop is left. *)
Equations? pollLoop (queryId : string) (attempts : nat) (last : DVQueryStatus)
  : Eff Trace DVQueryStatus
  by wf (maxAttempts - attempts) lt :=
pollLoop queryId attempts last with lt_dec attempts maxAttempts := {
  | left _ =>
      wait 1000 ;;;
      polled <- getDVQueryStatus queryId ;;
      if negb (String.eqb (status polled) "RUNNING") then ret polled
      else pollLoop queryId (attempts + 1) polled
  | right _ => ret last }.
Proof. lia. Qed.

(** The fetch loop, entered with [fetchAttempts]; it yields the value of
    [events] when the loop is left. *)
Equations? fetchLoop (queryId : string) (fetchAttempts : nat)
  : Eff Trace (option PaginatedResponse)
  by wf (maxFetchRetries - fetchAttempts) lt :=
fetchLoop queryId fetchAttempts with lt_dec fetchAttempts maxFetchRetries := {
  | left _ =>
      tryCatch
        (getDVEvents queryId 50)
        (fun fetchError =>
           let msg := errorText fetchError in
           if includes "409" msg && (fetchAttempts <? maxFetchRetries - 1)%nat then
             wait 2000 ;;; fetchLoop queryId (fetchAttempts + 1)
           else throw fetchError)
  | right _ => ret None }.
Proof. lia. Qed.

(** The bullet of a summary line, U+2022 in UTF-8. *)
Definition bullet : string :=
  String (ascii_of_nat 226) (String (ascii_of_nat 128) (String (ascii_of_nat 162) EmptyString)).

Definition summarizeHashEvent (e : DVEvent) : string :=
  let time := match eventTime e with
              | Some (String c rest) => formatTimeAgo (String c rest)
              | _ => "unknown"
              end in
  let type := orElse (eventType e) "Unknown" in
  let process := orElse (processName e) "N/A" in
  let agent := orElse (agentName e) "Unknown" in
  let user := orElse (processUser e) (orElse (user e) EmptyString) in
  let details := EmptyString in
  let details := match filePath e with
                 | Some (String c rest) => details ++ " | " ++ truncatePath (String c rest) 60
                 | _ => details
                 end in
  let details := match processCommandLine e with
                 | Some (String c rest) => details ++ " | cmd: " ++ slice0 80 (String c rest)
                 | _ => details
                 end in
  let details := match user with
                 | String _ _ => details ++ " | " ++ user
                 | EmptyString => details
                 end in
  bullet ++ " " ++ agent ++ " | " ++ type ++ " | " ++ process ++ " | " ++ time ++ details.

Record Params : Type := mkParams { hash : string }.

Definition slotBusyText : string :=
  "DV query slot busy - another query is still processing. Try again shortly.".

Definition stillRunningText (queryId : string) : string :=
  "Query still running after " ++ showNat maxAttempts
  ++ "s. Use s1_dv_get_events with queryId: " ++ queryId.

Definition notAvailableText (queryId : string) : string :=
  "Query completed but events not available after retries. Use s1_dv_get_events with queryId: "
  ++ queryId.

Definition noActivityText (hashField hash : string) : string :=
  "No activity found for " ++ hashField ++ " " ++ hash ++ " in the last 14 days.".

(** The report of a non-empty page. *)
Definition report (hashField hash queryId : string) (events : list DVEvent)
    (pagination : option Pagination) : string :=
  let agents := nodup string_dec (map (fun e => orElse (agentName e) "Unknown") events) in
  let header :=
    "Hash " ++ hashField ++ " " ++ hash ++ newline
    ++ "Seen on " ++ showNat (length agents) ++ " endpoint(s) | "
    ++ showNat (length events) ++ " event(s) in last 14 days:" ++ newline ++ newline in
  let summary := join newline (map summarizeHashEvent events) in
  let footer :=
    match pagination with
    | Some (mkPagination (Some (String c rest)) _) =>
        newline ++ newline ++ "[More results - use s1_dv_get_events with queryId: "
        ++ queryId ++ ", cursor: " ++ String c rest ++ "]"
    | _ => EmptyString
    end in
  header ++ summary ++ footer.

(** After a fetch loop left normally: what is shown for [events]. *)
Definition present (hashField hash : string) (result : DVQueryResponse)
    (fetched : option PaginatedResponse) : ToolResult :=
  match fetched with
  | None => textResult (notAvailableText (queryId result))
  | Some events =>
      match data events with
      | Some (e :: rest) =>
          textResult (report hashField hash (queryId result) (e :: rest) (pagination events))
      | _ => textResult (noActivityText hashField hash)
      end
  end.

(** "Fetch events with 409 retry": the handler from the fetch loop on. *)
Definition fetchPhase (hashField hash : string) (result : DVQueryResponse)
  : Eff Trace ToolResult :=
  fetched <- fetchLoop (queryId result) 0 ;;
  ret (present hashField hash result fetched).

(** "Poll for completion": the handler from the polling loop on. *)
Definition pollPhase (hashField hash : string) (result : DVQueryResponse)
  : Eff Trace ToolResult :=
  polled <- pollLoop (queryId result) 0 (mkDVQueryStatus "RUNNING" None) ;;
  if String.eqb (status polled) "FAILED" then
    ret (errorResult
           ("DV hash query failed: " ++ orElse (responseError polled) "Unknown error"))
  else if String.eqb (status polled) "RUNNING" then
    ret (textResult (stillRunningText (queryId result)))
  else
    fetchPhase hashField hash result.

Definition hashFieldOf (hash : string) : string :=
  if (String.length hash =? 64)%nat then "SHA256" else "SHA1".

Definition dvQueryOf (hash : string) : string :=
  hashFieldOf hash ++ " = " ++ dquote ++ hash ++ dquote.

(** The body of the outer [try] of [handleHashLookup]: the two checks of
    the hash, the creation loop, then the phases above.  The length is
    counted in the 8-bit units of the model: on ASCII input it is
    [params.hash.length]; an input with other characters is rejected by the
    code and by the model alike, with the error flag and before any call,
    but possibly by the other of the two checks, hence with the other
    message. *)
Definition lookup (params : Params) : Eff Trace ToolResult :=
  let hashLength := String.length (hash params) in
  if negb (hashLength =? 40)%nat && negb (hashLength =? 64)%nat then
    ret (errorResult
           ("Invalid hash format. Expected SHA1 (40 chars) or SHA256 (64 chars), got "
            ++ showNat hashLength ++ " chars"))
  else if negb (hexOnly (hash params)) then
    ret (errorResult "Invalid hash format. Hash must be hexadecimal characters only.")
  else
    let hashField := hashFieldOf (hash params) in
    let dvQuery := dvQueryOf (hash params) in
    created <- createLoop dvQuery 0 ;;
    match created with
    | None => ret (errorResult slotBusyText)
    | Some result => pollPhase hashField (hash params) result
    end.

(** The outer [catch] of [handleHashLookup]. *)
Definition rescue (error : Thrown) : Eff Trace ToolResult :=
  ret (errorResult ("Error hunting hash: " ++ errorText error)).

(** [handleHashLookup]: the body, and the outer [catch]. *)
Definition handleHashLookup (params : Params) : Eff Trace ToolResult :=
  tryCatch (lookup params) rescue.

(** The four results the handler returns without the error flag: still
    running, events not available, no activity, and the report. *)
Inductive NonFailure : ToolResult -> Prop :=
| StillRunning (queryId : string) :
    NonFailure (textResult (stillRunningText queryId))
| NotAvailable (queryId : string) :
    NonFailure (textResult (notAvailableText queryId))
| NoActivity (hashField h : string) :
    NonFailure (textResult (noActivityText hashField h))
| Report (hashField h queryId : string) (events : list DVEvent)
    (pagination : option Pagination) :
    NonFailure (textResult (report hashField h queryId events pagination)).

(** *** Scenarios of one invocation *)

(** An answer that is a thrown value whose message carries [409]: the
    condition both retry loops test. *)
Definition busy {A} (o : Outcome A) : Prop :=
  exists e, o = Throws e /\ includes "409" (errorText e) = true.

(** An answer that is a status still [RUNNING]. *)
Definition running (o : Outcome DVQueryStatus) : Prop :=
  exists s, o = Returns s /\ status s = "RUNNING".

(** The first [k] creation attempts are busy and attempt [k] returns
    [result]. *)
Definition created (k : nat) (result : DVQueryResponse) : Prop :=
  k < maxCreateRetries
  /\ (forall i, i < k -> busy (createAnswer R i))
  /\ createAnswer R k = Returns (Some result).

(** The first [j] polls see [RUNNING] and poll [j] sees the status [s],
    which is not [RUNNING]. *)
Definition settled (j : nat) (s : DVQueryStatus) : Prop :=
  j < maxAttempts
  /\ (forall i, i < j -> running (statusAnswer R i))
  /\ statusAnswer R j = Returns s
  /\ status s <> "RUNNING".

(** The first [f] fetch attempts are busy and attempt [f] returns [page]. *)
Definition fetched (f : nat) (page : PaginatedResponse) : Prop :=
  f < maxFetchRetries
  /\ (forall i, i < f -> busy (eventsAnswer R i))
  /\ eventsAnswer R f = Returns (Some page).

(** The hash passes both checks. *)
Definition wellFormed (h : string) : bool :=
  ((String.length h =? 40)%nat || (String.length h =? 64)%nat) && hexOnly h.

(** The effects of [k] busy creation attempts, of [j] polls, of [f] busy
    fetch attempts. *)
Fixpoint createRetries (dvQuery : string) (k : nat) : Trace :=
  match k with
  | 0 => []
  | S k' =>
      (createRetries dvQuery k'
       ++ [CreateDVQuery dvQuery (fromDate R) (toDate R); Wait 3000])%list
  end.

Fixpoint polls (queryId : string) (j : nat) : Trace :=
  match j with
  | 0 => []
  | S j' => (polls queryId j' ++ [Wait 1000; GetDVQueryStatus queryId])%list
  end.

Fixpoint fetchRetries (queryId : string) (f : nat) : Trace :=
  match f with
  | 0 => []
  | S f' => (fetchRetries queryId f' ++ [GetDVEvents queryId 50; Wait 2000])%list
  end.

(** One creation call of the handler. *)
Definition createCall (dvQuery : string) : Effect :=
  CreateDVQuery dvQuery (fromDate R) (toDate R).

End Handler.

(** *** Sample invocations *)

Definition sha1Hash : string := "da39a3ee5e6b4b0d3255bfef95601890afd80709".
Definition sha256Hash : string :=
  "e3b0c44298fc1c149afbf4c8996fb92427ae41e4649b934ca495991b7852b855".

Definition conflict : Thrown := ErrorObj "Error" "HTTP 409: Conflict - query slot in use".
Definition serverError : Thrown := ErrorObj "Error" "HTTP 500: Internal Server Error - boom".

Definition q1 : DVQueryResponse := mkDVQueryResponse "q1" "RUNNING".
Definition runningStatus : DVQueryStatus := mkDVQueryStatus "RUNNING" None.
Definition finishedStatus : DVQueryStatus := mkDVQueryStatus "FINISHED" None.
Definition canceledStatus : DVQueryStatus := mkDVQueryStatus "CANCELED" None.
Definition emptyPage : PaginatedResponse := mkPaginatedResponse (Some []) None.

Definition event (agent type process : string) : DVEvent :=
  mkDVEvent None (Some type) (Some process) (Some agent) None None None None.

Definition twoEvents : PaginatedResponse :=
  mkPaginatedResponse
    (Some [event "host-a" "File Creation" "cmd.exe";
           event "host-b" "Process Creation" "powershell.exe"])
    None.

(** Stand-ins for the two helpers of [src/utils.ts]. *)
Definition sampleTimeAgo (t : string) : string := t.
Definition sampleTruncate (path : string) (n : nat) : string := slice0 n path.

Definition toISO : string := "2026-01-15T00:00:00.000Z".
Definition fromISO : string := "2026-01-01T00:00:00.000Z".

(** Every creation attempt answers HTTP 409. *)
Definition slotAlwaysBusy : Remote :=
  mkRemote (fun _ => Throws conflict) (fun _ => Returns finishedStatus)
    (fun _ => Returns (Some emptyPage)) toISO fromISO.

(** The job finishes at the first poll; every fetch answers HTTP 409. *)
Definition eventsNeverReady : Remote :=
  mkRemote (fun _ => Returns (Some q1)) (fun _ => Returns finishedStatus)
    (fun _ => Throws conflict) toISO fromISO.

(** Two polls see [RUNNING], the third sees [CANCELED]. *)
Definition canceledJob : Remote :=
  mkRemote (fun _ => Returns (Some q1))
    (fun i => Returns (if (i <? 2)%nat then runningStatus else canceledStatus))
    (fun _ => Returns (Some emptyPage)) toISO fromISO.

(** The happy path of the specification: created at once as [q1], two
    polls [RUNNING], the third [FINISHED], two events fetched at once. *)
Definition happyPath : Remote :=
  mkRemote (fun _ => Returns (Some q1))
    (fun i => Returns (if (i <? 2)%nat then runningStatus else finishedStatus))
    (fun _ => Returns (Some twoEvents)) toISO fromISO.

(** Two busy creation attempts, then HTTP 500. *)
Definition serverFails : Remote :=
  mkRemote (fun i => Throws (if (i <? 2)%nat then conflict else serverError))
    (fun _ => Returns finishedStatus)
    (fun _ => Returns (Some emptyPage)) toISO fromISO.

(** The job never leaves [RUNNING]. *)
Definition neverFinishes : Remote :=
  mkRemote (fun _ => Returns (Some q1)) (fun _ => Returns runningStatus)
    (fun _ => Returns (Some emptyPage)) toISO fromISO.

(** The job finishes at the first poll and has no events. *)
Definition nothingFound : Remote :=
  mkRemote (fun _ => Returns (Some q1)) (fun _ => Returns finishedStatus)
    (fun _ => Returns (Some emptyPage)) toISO fromISO.

(** One poll sees [RUNNING], the next status call fails with HTTP 409. *)
Definition pollBreaks : Remote :=
  mkRemote (fun _ => Returns (Some q1))
    (fun i => if (i <? 1)%nat then Returns runningStatus else Throws conflict)
    (fun _ => Returns (Some emptyPage)) toISO fromISO.

(** The job finishes at once; one busy fetch, then HTTP 500. *)
Definition fetchBreaks : Remote :=
  mkRemote (fun _ => Returns (Some q1)) (fun _ => Returns finishedStatus)
    (fun i => Throws (if (i <? 1)%nat then conflict else serverError))
    toISO fromISO.

(** The job fails at the second poll, with an empty [responseError]. *)
Definition failedJob : Remote :=
  mkRemote (fun _ => Returns (Some q1))
    (fun i => Returns (if (i <? 1)%nat then runningStatus
                       else mkDVQueryStatus "FAILED" (Some EmptyString)))
    (fun _ => Returns (Some emptyPage)) toISO fromISO.

(** Two busy creation attempts, two polls [RUNNING], one busy fetch, then
    two events. *)
Definition patientHunt : Remote :=
  mkRemote (fun i => if (i <? 2)%nat then Throws conflict else Returns (Some q1))
    (fun i => Returns (if (i <? 2)%nat then runningStatus else finishedStatus))
    (fun i => if (i <? 1)%nat then Throws conflict else Returns (Some twoEvents))
    toISO fromISO.

Definition run (R : Remote) (h : string) : Outcome ToolResult * Trace :=
  handleHashLookup R sampleTimeAgo sampleTruncate (mkParams h) [].

(** The error flag of the result of a sample run. *)
Definition isError_of_run (R : Remote) (h : string) : option bool :=
  match fst (run R h) with
  | Returns r => Some (isError r)
  | Throws _ => None
  end.

(** *** Anatomy of a run *)

(** The milliseconds a trace spends in [Wait]. *)
Fixpoint waited (tr : Trace) : N :=
  match tr with
  | [] => 0%N
  | Wait ms :: rest => (ms + waited rest)%N
  | _ :: rest => waited rest
  end.

Section Runs.

Variable R : Remote.
Variable formatTimeAgo : string -> string.
Variable truncatePath : string -> nat -> string.

(** The creation loop ends at attempt [k] with the answer [o]: the attempts
    before it were busy, and [o] is busy only when the budget is used up. *)
Definition createEnds (k : nat) (o : Outcome (option DVQueryResponse)) : Prop :=
  k < maxCreateRetries
  /\ (forall i, i < k -> busy (createAnswer R i))
  /\ createAnswer R k = o
  /\ (busy o -> k = maxCreateRetries - 1).

(** The polling loop ends at poll [j] with the answer [o]: the polls before
    it saw [RUNNING], and [o] is [RUNNING] only when the budget is used up. *)
Definition pollEnds (j : nat) (o : Outcome DVQueryStatus) : Prop :=
  j < maxAttempts
  /\ (forall i, i < j -> running (statusAnswer R i))
  /\ statusAnswer R j = o
  /\ (running o -> j = maxAttempts - 1).

(** The fetch loop ends at attempt [f] with the answer [o]. *)
Definition fetchEnds (f : nat) (o : Outcome (option PaginatedResponse)) : Prop :=
  f < maxFetchRetries
  /\ (forall i, i < f -> busy (eventsAnswer R i))
  /\ eventsAnswer R f = o
  /\ (busy o -> f = maxFetchRetries - 1).

(** The effects up to the end of each phase. *)
Definition createTrace (h : string) (k : nat) : Trace :=
  (createRetries R (dvQueryOf h) k ++ [createCall R (dvQueryOf h)])%list.

Definition pollTrace (h : string) (k : nat) (result : DVQueryResponse) (j : nat) : Trace :=
  (createTrace h k ++ polls (queryId result) (S j))%list.

Definition fetchTrace (h : string) (k : nat) (result : DVQueryResponse) (j f : nat)
  : Trace :=
  (pollTrace h k result j
   ++ fetchRetries (queryId result) f ++ [GetDVEvents (queryId result) 50])%list.

Definition huntingError (e : Thrown) : ToolResult :=
  errorResult ("Error hunting hash: " ++ errorText e).

(** The runs of the handler on a well-formed hash [h], by the answers that
    end each loop: the result returned and the effects performed. *)
Inductive Run (h : string) : ToolResult -> Trace -> Prop :=
| CreationThrows (k : nat) (e : Thrown) :
    createEnds k (Throws e) ->
    Run h (huntingError e) (createTrace h k)
| CreationEmpty (k : nat) :
    createEnds k (Returns None) ->
    Run h (errorResult slotBusyText) (createTrace h k)
| PollThrows (k : nat) (result : DVQueryResponse) (j : nat) (e : Thrown) :
    createEnds k (Returns (Some result)) ->
    pollEnds j (Throws e) ->
    Run h (huntingError e) (pollTrace h k result j)
| JobFailed (k : nat) (result : DVQueryResponse) (j : nat) (s : DVQueryStatus) :
    createEnds k (Returns (Some result)) ->
    pollEnds j (Returns s) ->
    status s = "FAILED" ->
    Run h (errorResult ("DV hash query failed: "
                        ++ orElse (responseError s) "Unknown error"))
      (pollTrace h k result j)
| JobStillRunning (k : nat) (result : DVQueryResponse) (j : nat) (s : DVQueryStatus) :
    createEnds k (Returns (Some result)) ->
    pollEnds j (Returns s) ->
    status s = "RUNNING" ->
    Run h (textResult (stillRunningText (queryId result))) (pollTrace h k result j)
| FetchThrows (k : nat) (result : DVQueryResponse) (j : nat) (s : DVQueryStatus)
    (f : nat) (e : Thrown) :
    createEnds k (Returns (Some result)) ->
    pollEnds j (Returns s) ->
    status s <> "FAILED" ->
    status s <> "RUNNING" ->
    fetchEnds f (Throws e) ->
    Run h (huntingError e) (fetchTrace h k result j f)
| Presented (k : nat) (result : DVQueryResponse) (j : nat) (s : DVQueryStatus)
    (f : nat) (events : option PaginatedResponse) :
    createEnds k (Returns (Some result)) ->
    pollEnds j (Returns s) ->
    status s <> "FAILED" ->
    status s <> "RUNNING" ->
    fetchEnds f (Returns events) ->
    Run h (present formatTimeAgo truncatePath (hashFieldOf h) h result events)
      (fetchTrace h k result j f).

(** What an effect of a run may be for the hash [h]: a creation call
    with the query for [h] and the time range of the invocation, a status
    call or an event fetch (of at most 50 events) for the queryId that the
    creation returned, or one of the three fixed waits. *)
Definition carries (h : string) (e : Effect) : Prop :=
  match e with
  | CreateDVQuery query from to =>
      query = hashFieldOf h ++ " = " ++ dquote ++ h ++ dquote
      /\ from = fromDate R /\ to = toDate R
  | GetDVQueryStatus queryId' =>
      exists k result, createEnds k (Returns (Some result)) /\ queryId' = queryId result
  | GetDVEvents queryId' limit =>
      (exists k result, createEnds k (Returns (Some result)) /\ queryId' = queryId result)
      /\ limit = 50
  | Wait ms => ms = 3000%N \/ ms = 1000%N \/ ms = 2000%N
  end.

End Runs.

End Hash.

(** ** The Deep Visibility client calls ([src/client/rest.ts]) and their
       place under the handler *)

Module Client.

(** The parsed body of a creation or status answer, of which the [data]
    property is read, as the calls type it ([{ data: ... }]).  A body that
    parses to [null], on which reading [data] throws, is outside this
    type. *)
Record Envelope (A : Type) : Type := mkEnvelope { data : A }.
Arguments mkEnvelope {A}.
Arguments data {A}.

Section Calls.

Variable sanitizeError : Thrown -> string.

(** [createDVQuery]: [request], then [response.data]; [None] when the body
    has no [data]. *)
Definition createDVQuery (x : Rest.Exchange (Envelope (option DVQueryResponse)))
  : Eff Rest.Timers (option DVQueryResponse) :=
  response <- Rest.request sanitizeError x ;;
  ret (data response).

(** [getDVQueryStatus]: [request], then [response.data]. *)
Definition getDVQueryStatus (x : Rest.Exchange (Envelope DVQueryStatus))
  : Eff Rest.Timers DVQueryStatus :=
  response <- Rest.request sanitizeError x ;;
  ret (data response).

(** [getDVEvents]: [request]; [None] when the body is [null]. *)
Definition getDVEvents (x : Rest.Exchange (option PaginatedResponse))
  : Eff Rest.Timers (option PaginatedResponse) :=
  Rest.request sanitizeError x.

(** A series of calls awaited one after the other, as the handler awaits
    its client calls: the timer table they leave. *)
Fixpoint requestAll {T} (xs : list (Rest.Exchange T)) (t : Rest.Timers) : Rest.Timers :=
  match xs with
  | [] => t
  | x :: rest => requestAll rest (snd (Rest.request sanitizeError x t))
  end.

(** What the network does with the n-th call of each kind, and the clock. *)
Record Network : Type := mkNetwork {
  createExchange : nat -> Rest.Exchange (Envelope (option DVQueryResponse));
  statusExchange : nat -> Rest.Exchange (Envelope DVQueryStatus);
  eventsExchange : nat -> Rest.Exchange (option PaginatedResponse);
  nowISO : string;
  twoWeeksAgoISO : string
}.

(** The remote the handler meets over a network: the answers of the three
    client calls.  The outcome of a call does not depend on the timer table
    it starts from, so it is read off a call started from the empty one. *)
Definition remoteOf (net : Network) : Hash.Remote :=
  Hash.mkRemote
    (fun n => fst (createDVQuery (createExchange net n) Rest.noTimers))
    (fun n => fst (getDVQueryStatus (statusExchange net n) Rest.noTimers))
    (fun n => fst (getDVEvents (eventsExchange net n) Rest.noTimers))
    (nowISO net) (twoWeeksAgoISO net).

End Calls.

(** The network answers in time with a status in 200-299 and a body that
    parses to [v]. *)
Definition timelyAnswer {T} (x : Rest.Exchange T) (v : T) : Prop :=
  exists ms response ms',
    x = Rest.After ms (Returns response)
    /\ Rest.ok response = true
    /\ Rest.json response = Rest.After ms' (Returns v)
    /\ (ms + ms' < Rest.TIMEOUT_MS)%N.

(** The network answers in time with HTTP 409 and a readable body. *)
Definition timely409 {T} (x : Rest.Exchange T) : Prop :=
  exists ms response ms' errorBody,
    x = Rest.After ms (Returns response)
    /\ Rest.status response = 409%N
    /\ Rest.text response = Rest.After ms' (Returns errorBody)
    /\ (ms + ms' < Rest.TIMEOUT_MS)%N.

(** A sanitizer that leaves a [409] in the message where there is one. *)
Definition keeps409 (sanitizeError : Thrown -> string) : Prop :=
  forall e, includes "409" (errorText e) = true ->
            includes "409" (sanitizeError e) = true.

(** Ids are handed out in order: every pending timer is older than the
    next id. *)
Definition wellNumbered (t : Rest.Timers) : Prop :=
  forall id, In id (Rest.pending t) -> id < Rest.nextTimerId t.

(** *** Sample networks *)

(** An answer that never comes. *)
Definition silence {T} : Rest.Exchange T :=
  Rest.After 60000 (Throws (ErrorObj "TypeError" "fetch failed")).

(** HTTP 409 with a readable body. *)
Definition conflict409 {T} : Rest.Exchange T :=
  Rest.After 90 (Returns (Rest.mkResponse 409 "Conflict"
                            (Rest.After 4 (Returns "query slot in use"))
                            (Rest.After 4 (Throws (ErrorObj "SyntaxError"
                                                     "Unexpected token"))))).

(** HTTP 200 with the parsed body [v]. *)
Definition answers {T} (v : T) : Rest.Exchange T :=
  Rest.After 80 (Returns (Rest.mkResponse 200 "OK"
                            (Rest.After 3 (Returns "{}"))
                            (Rest.After 3 (Returns v)))).

(** HTTP 502 whose body text mentions [409]. *)
Definition upstream409 {T} : Rest.Exchange T :=
  Rest.After 90 (Returns (Rest.mkResponse 502 "Bad Gateway"
                            (Rest.After 4 (Returns "upstream answered 409"))
                            (Rest.After 4 (Throws (ErrorObj "SyntaxError"
                                                     "Unexpected token"))))).

(** A timer table in which a timer armed by someone else is pending. *)
Definition oneForeignTimer : Rest.Timers := Rest.mkTimers 1 [0].

(** Creation never answers. *)
Definition deadNetwork : Network :=
  mkNetwork (fun _ => silence)
    (fun _ => answers (mkEnvelope Hash.finishedStatus))
    (fun _ => answers (Some Hash.emptyPage)) Hash.toISO Hash.fromISO.

(** Creation answers 200 with a body that has no [data]. *)
Definition hollowNetwork : Network :=
  mkNetwork (fun _ => answers (mkEnvelope None))
    (fun _ => answers (mkEnvelope Hash.finishedStatus))
    (fun _ => answers (Some Hash.emptyPage)) Hash.toISO Hash.fromISO.

(** Creation answers 409 twice, then 200 with the query [q1]; the job is
    finished at the first poll and has no events. *)
Definition contendedNetwork : Network :=
  mkNetwork
    (fun n => if (n <? 2)%nat then conflict409 else answers (mkEnvelope (Some Hash.q1)))
    (fun _ => answers (mkEnvelope Hash.finishedStatus))
    (fun _ => answers (Some Hash.emptyPage)) Hash.toISO Hash.fromISO.

(** Creation is answered HTTP 502 with a body that mentions [409], every
    time. *)
Definition gatewayNetwork : Network :=
  mkNetwork (fun _ => upstream409)
    (fun _ => answers (mkEnvelope Hash.finishedStatus))
    (fun _ => answers (Some Hash.emptyPage)) Hash.toISO Hash.fromISO.

End Client.

(** * Properties of the request executor *)

Module RestProofs.

Import Rest.


Lemma remove_cons_same (id : nat) (l : list nat) :
  remove Nat.eq_dec id (id :: l) = remove Nat.eq_dec id l.
Proof.
  simpl. destruct (Nat.eq_dec id id) as [_ | ne]; [reflexivity | contradiction].
Qed.

Lemma remove_twice (id : nat) (l : list nat) :
  remove Nat.eq_dec id (remove Nat.eq_dec id l) = remove Nat.eq_dec id l.
Proof.
  apply notin_remove. apply remove_In.
Qed.

(** Case analysis along the paths of [request]: whether each await beats
    the timer, what it settles to, the status, the kind of a caught error. *)
Ltac request_paths :=
  repeat (simpl;
    match goal with
    | |- context [Nat.eq_dec ?a ?a] =>
        destruct (Nat.eq_dec a a); [ | contradiction ]
    | |- context [N.leb ?a ?b] => rewrite (N.leb_antisym b a)
    | |- context [N.ltb ?a ?b] => destruct (N.ltb a b) eqn:?
    | |- context [ok ?r] => destruct (ok r) eqn:?
    | |- context [json ?r] => destruct (json r) as [? [? | ?]] eqn:?
    | |- context [text ?r] => destruct (text r) as [? [? | ?]] eqn:?
    | |- context [isAbortError ?e] => destruct (isAbortError e) eqn:?
    end).

Ltac run_request :=
  unfold request, tryFinally, tryCatch, bind, setTimeout, awaitWithSignal,
    ret, throw, clearTimeout, fired.

(** The timer table after any call: the call's own timer is gone and
    nothing else has changed. *)
Lemma request_timers {T} (san : Thrown -> string) (x : Exchange T) (t : Timers) :
  snd (request san x t)
  = mkTimers (S (nextTimerId t)) (remove Nat.eq_dec (nextTimerId t) (pending t)).
Proof.
  run_request.
  destruct x as [ms [response | e]]; request_paths;
    rewrite ?remove_twice; reflexivity.
Qed.

(** C9. Whatever the outcome of a call (success, HTTP error, timeout
    abort, transport error), the timeout timer the call armed is not pending
    when the call returns, and every other timer is as it was. *)
Theorem request_cancels_its_timer {T} (san : Thrown -> string)
    (x : Exchange T) (t : Timers) :
  ~ In (nextTimerId t) (pending (snd (request san x t)))
  /\ forall id, id <> nextTimerId t ->
       (In id (pending (snd (request san x t))) <-> In id (pending t)).
Proof.
  rewrite request_timers. simpl. split.
  - apply remove_In.
  - intros id Hid. split.
    + intros Hin. apply in_remove in Hin. tauto.
    + intros Hin. apply in_in_remove; assumption.
Qed.

(** With timer ids handed out in order, the table of pending timers is
    exactly what it was before the call. *)
Lemma request_leaks_no_timer {T} (san : Thrown -> string)
    (x : Exchange T) (t : Timers) :
  (forall id, In id (pending t) -> id < nextTimerId t) ->
  pending (snd (request san x t)) = pending t.
Proof.
  intros Hfresh. rewrite request_timers. simpl.
  apply notin_remove. intros Hin. apply Hfresh in Hin. lia.
Qed.

(** [request] against the three kinds of the classification. *)
Lemma request_classified {T} (san : Thrown -> string) (x : Exchange T) (t : Timers) :
  fst (request san x t)
  = match classify x with
    | inl v => Returns v
    | inr f => Throws (render san f)
    end.
Proof.
  unfold classify, boundElapses, bodyReadMs, ofThrown, render.
  run_request.
  destruct x as [ms [response | e]]; request_paths; simpl;
    congruence.
Qed.

(** The kinds one by one, read off the exchange. *)
Lemma request_success {T} san (x : Exchange T) t ms response ms' v :
  x = After ms (Returns response) ->
  ok response = true ->
  json response = After ms' (Returns v) ->
  (ms + ms' < TIMEOUT_MS)%N ->
  fst (request san x t) = Returns v.
Proof.
  intros -> Hok Hjson Hlt. rewrite request_classified.
  unfold classify, boundElapses, bodyReadMs. rewrite Hok, Hjson.
  assert (H1 : (TIMEOUT_MS <=? ms)%N = false) by (apply N.leb_gt; lia).
  assert (H2 : (TIMEOUT_MS <=? ms + ms')%N = false) by (apply N.leb_gt; lia).
  rewrite H1, H2. reflexivity.
Qed.

Lemma request_timeout {T} san (x : Exchange T) t :
  boundElapses x = true ->
  fst (request san x t) = Throws (ErrorObj "Error" "Request timeout after 30000ms").
Proof.
  intros Hb. rewrite request_classified.
  unfold classify. rewrite Hb. reflexivity.
Qed.

Lemma request_http_error {T} san (x : Exchange T) t ms response ms' errorBody :
  x = After ms (Returns response) ->
  ok response = false ->
  text response = After ms' (Returns errorBody) ->
  (ms + ms' < TIMEOUT_MS)%N ->
  fst (request san x t)
  = Throws (ErrorObj "Error"
              (san (ErrorObj "Error"
                      ("HTTP " ++ show (status response) ++ ": "
                       ++ statusText response ++ " - " ++ errorBody)))).
Proof.
  intros -> Hok Htext Hlt. rewrite request_classified.
  unfold classify, boundElapses, bodyReadMs. rewrite Hok, Htext.
  assert (H1 : (TIMEOUT_MS <=? ms)%N = false) by (apply N.leb_gt; lia).
  assert (H2 : (TIMEOUT_MS <=? ms + ms')%N = false) by (apply N.leb_gt; lia).
  rewrite H1, H2. reflexivity.
Qed.

Lemma request_transport_error {T} san (x : Exchange T) t ms cause :
  x = After ms (Throws cause) ->
  (ms < TIMEOUT_MS)%N ->
  isAbortError cause = false ->
  fst (request san x t) = Throws (ErrorObj "Error" (san cause)).
Proof.
  intros -> Hlt Hab. rewrite request_classified.
  unfold classify, boundElapses, ofThrown.
  assert (H1 : (TIMEOUT_MS <=? ms)%N = false) by (apply N.leb_gt; lia).
  rewrite H1, Hab. reflexivity.
Qed.

Example request_http200 :
  fst (request plainSanitizer http200 noTimers) = Returns tt.
Proof. reflexivity. Qed.

Example request_http500 :
  fst (request plainSanitizer http500 noTimers)
  = Throws (ErrorObj "Error" "HTTP 500: Internal Server Error - boom").
Proof. reflexivity. Qed.

Example request_stalled :
  request plainSanitizer stalled noTimers
  = (Throws (ErrorObj "Error" "Request timeout after 30000ms"), mkTimers 1 []).
Proof. reflexivity. Qed.

(** C7 (amended). For every call, a 2xx response whose JSON body parses
    within the bound yields the parsed body, and every failure is thrown as
    a plain [Error] of one of three forms: the timeout message when the
    30-second bound elapses (or an [AbortError] is raised); for a status
    outside 200-299 whose body text was read, what the sanitizer makes of
    the HTTP error message built from the status code, the status text and
    the body text; for any other failure, what the sanitizer makes of it. *)
Theorem request_normalizes_failures {T} (san : Thrown -> string)
    (x : Exchange T) (t : Timers) :
  fst (request san x t)
  = match classify x with
    | inl v => Returns v
    | inr Timeout => Throws (ErrorObj "Error" "Request timeout after 30000ms")
    | inr (HttpError code reason errorBody) =>
        Throws (ErrorObj "Error"
                  (san (ErrorObj "Error"
                          ("HTTP " ++ show code ++ ": " ++ reason ++ " - " ++ errorBody))))
    | inr (OtherFailure cause) => Throws (ErrorObj "Error" (san cause))
    end.
Proof.
  rewrite request_classified.
  destruct (classify x) as [v | [ | code reason errorBody | cause]]; reflexivity.
Qed.

(** An HTTP error and a transport failure with the same message reach the
    caller as the same thrown value, whatever the sanitizer: the HTTP error
    is thrown inside the [try] block and goes through the same [catch]. *)
Lemma http_error_like_transport_error (san : Thrown -> string) (t : Timers) :
  fst (request san http500 t) = fst (request san transportLookalike t).
Proof. rewrite !request_classified. reflexivity. Qed.

(** Two error responses whose body cannot be read reach the caller as the
    same thrown value, whatever their status codes and whatever the
    sanitizer: the [catch] sees only the failure of the body read. *)
Lemma unreadable_error_bodies_alike (san : Thrown -> string) (t : Timers) :
  fst (request san http500Reset t) = fst (request san http404Reset t).
Proof. rewrite !request_classified. reflexivity. Qed.

(** C7 (as stated) fails: for no sanitizer are the three kinds
    distinguishable by the caller.  Read by the words of the claim (an HTTP
    error with its status code whenever the status is outside 200-299), an
    HTTP 500 and an HTTP 404 whose body cannot be read are thrown as the
    same value.  Read by the branches of the code, the HTTP 500 with body
    [boom] and a transport failure with the message
    [HTTP 500: Internal Server Error - boom] are thrown as the same value. *)
Lemma request_kinds_not_told_apart :
  ~ (exists san : Thrown -> string, kindsToldApart san statedKind)
  /\ ~ (exists san : Thrown -> string, kindsToldApart san classifiedKind).
Proof.
  split.
  - intros [san [tell Htell]].
    set (e := ErrorObj "Error" (san connectionReset)).
    pose proof (Htell http500Reset noTimers e eq_refl) as H500.
    pose proof (Htell http404Reset noTimers e eq_refl) as H404.
    change (statedKind http500Reset) with (Some (KHttp 500)) in H500.
    change (statedKind http404Reset) with (Some (KHttp 404)) in H404.
    congruence.
  - intros [san [tell Htell]].
    set (e := ErrorObj "Error"
                (san (ErrorObj "Error" "HTTP 500: Internal Server Error - boom"))).
    pose proof (Htell http500 noTimers e eq_refl) as Hhttp.
    pose proof (Htell transportLookalike noTimers e eq_refl) as Hnet.
    change (classifiedKind http500) with (Some (KHttp 500)) in Hhttp.
    change (classifiedKind transportLookalike) with (Some KOther) in Hnet.
    congruence.
Qed.

End RestProofs.

(** * Properties of the hash hunt *)

Module HashProofs.

Import Hash.

Section Lifecycle.

Variable R : Remote.
Variable formatTimeAgo : string -> string.
Variable truncatePath : string -> nat -> string.

(** The definitions of [Hash] at this remote and these helpers. *)
Local Abbreviation createDVQuery := (Hash.createDVQuery R).
Local Abbreviation getDVQueryStatus := (Hash.getDVQueryStatus R).
Local Abbreviation getDVEvents := (Hash.getDVEvents R).
Local Abbreviation createLoop := (Hash.createLoop R).
Local Abbreviation pollLoop := (Hash.pollLoop R).
Local Abbreviation fetchLoop := (Hash.fetchLoop R).
Local Abbreviation present := (Hash.present formatTimeAgo truncatePath).
Local Abbreviation fetchPhase := (Hash.fetchPhase R formatTimeAgo truncatePath).
Local Abbreviation pollPhase := (Hash.pollPhase R formatTimeAgo truncatePath).
Local Abbreviation lookup := (Hash.lookup R formatTimeAgo truncatePath).
Local Abbreviation handleHashLookup := (Hash.handleHashLookup R formatTimeAgo truncatePath).
Local Abbreviation NonFailure := (Hash.NonFailure formatTimeAgo truncatePath).
Local Abbreviation created := (Hash.created R).
Local Abbreviation settled := (Hash.settled R).
Local Abbreviation fetched := (Hash.fetched R).
Local Abbreviation createRetries := (Hash.createRetries R).
Local Abbreviation createCall := (Hash.createCall R).

#[local] Arguments Nat.sub : simpl never.

(** *** The loops, one iteration at a time *)

Lemma createLoop_step (dvQuery : string) (createAttempts : nat) (tr : Trace) :
  createAttempts < maxCreateRetries ->
  createLoop dvQuery createAttempts tr
  = match createAnswer R (count isCreate tr) with
    | Returns result =>
        (Returns result, (tr ++ [CreateDVQuery dvQuery (fromDate R) (toDate R)])%list)
    | Throws createError =>
        if includes "409" (errorText createError)
           && (createAttempts <? maxCreateRetries - 1)%nat
        then createLoop dvQuery (createAttempts + 1)
               (tr ++ [CreateDVQuery dvQuery (fromDate R) (toDate R); Wait 3000])%list
        else (Throws createError,
              (tr ++ [CreateDVQuery dvQuery (fromDate R) (toDate R)])%list)
    end.
Proof.
  intros Hlt. rewrite createLoop_equation_1.
  destruct (lt_dec createAttempts maxCreateRetries) as [Hlt' | Hge]; [ | contradiction ].
  simpl. unfold tryCatch, Hash.createDVQuery, bind, wait, throw.
  destruct (createAnswer R (count isCreate tr)) as [result | createError];
    [ reflexivity | ].
  destruct (includes "409" (errorText createError)
            && (createAttempts <? maxCreateRetries - 1)%nat);
    [ | reflexivity ].
  rewrite <- app_assoc. reflexivity.
Qed.

Lemma createLoop_done (dvQuery : string) (createAttempts : nat) (tr : Trace) :
  maxCreateRetries <= createAttempts ->
  createLoop dvQuery createAttempts tr = (Returns None, tr).
Proof.
  intros Hge. rewrite createLoop_equation_1.
  destruct (lt_dec createAttempts maxCreateRetries) as [Hlt | Hge']; [ lia | reflexivity ].
Qed.

Lemma count_app (p : Effect -> bool) (tr1 tr2 : Trace) :
  count p (tr1 ++ tr2)%list = count p tr1 + count p tr2.
Proof. unfold count. rewrite filter_app, length_app. reflexivity. Qed.

Lemma pollLoop_step (queryId : string) (attempts : nat) (last : DVQueryStatus)
    (tr : Trace) :
  attempts < maxAttempts ->
  pollLoop queryId attempts last tr
  = match statusAnswer R (count isStatus tr) with
    | Returns polled =>
        if negb (String.eqb (status polled) "RUNNING")
        then (Returns polled, (tr ++ [Wait 1000; GetDVQueryStatus queryId])%list)
        else pollLoop queryId (attempts + 1) polled
               (tr ++ [Wait 1000; GetDVQueryStatus queryId])%list
    | Throws e => (Throws e, (tr ++ [Wait 1000; GetDVQueryStatus queryId])%list)
    end.
Proof.
  intros Hlt. rewrite pollLoop_equation_1.
  destruct (lt_dec attempts maxAttempts) as [Hlt' | Hge]; [ | contradiction ].
  simpl. unfold bind, wait, Hash.getDVQueryStatus, ret.
  rewrite count_app. simpl. rewrite Nat.add_0_r, <- app_assoc. simpl.
  destruct (statusAnswer R (count isStatus tr)) as [polled | e]; [ | reflexivity ].
  destruct (negb (String.eqb (status polled) "RUNNING")); reflexivity.
Qed.

Lemma pollLoop_done (queryId : string) (attempts : nat) (last : DVQueryStatus)
    (tr : Trace) :
  maxAttempts <= attempts ->
  pollLoop queryId attempts last tr = (Returns last, tr).
Proof.
  intros Hge. rewrite pollLoop_equation_1.
  destruct (lt_dec attempts maxAttempts) as [Hlt | Hge']; [ lia | reflexivity ].
Qed.

Lemma fetchLoop_step (queryId : string) (fetchAttempts : nat) (tr : Trace) :
  fetchAttempts < maxFetchRetries ->
  fetchLoop queryId fetchAttempts tr
  = match eventsAnswer R (count isEvents tr) with
    | Returns events => (Returns events, (tr ++ [GetDVEvents queryId 50])%list)
    | Throws fetchError =>
        if includes "409" (errorText fetchError)
           && (fetchAttempts <? maxFetchRetries - 1)%nat
        then fetchLoop queryId (fetchAttempts + 1)
               (tr ++ [GetDVEvents queryId 50; Wait 2000])%list
        else (Throws fetchError, (tr ++ [GetDVEvents queryId 50])%list)
    end.
Proof.
  intros Hlt. rewrite fetchLoop_equation_1.
  destruct (lt_dec fetchAttempts maxFetchRetries) as [Hlt' | Hge]; [ | contradiction ].
  simpl. unfold tryCatch, Hash.getDVEvents, bind, wait, throw.
  destruct (eventsAnswer R (count isEvents tr)) as [events | fetchError];
    [ reflexivity | ].
  destruct (includes "409" (errorText fetchError)
            && (fetchAttempts <? maxFetchRetries - 1)%nat);
    [ | reflexivity ].
  rewrite <- app_assoc. reflexivity.
Qed.

Lemma fetchLoop_done (queryId : string) (fetchAttempts : nat) (tr : Trace) :
  maxFetchRetries <= fetchAttempts ->
  fetchLoop queryId fetchAttempts tr = (Returns None, tr).
Proof.
  intros Hge. rewrite fetchLoop_equation_1.
  destruct (lt_dec fetchAttempts maxFetchRetries) as [Hlt | Hge']; [ lia | reflexivity ].
Qed.

Lemma count_createRetries (dvQuery : string) (k : nat) :
  count isCreate (createRetries dvQuery k) = k
  /\ count isStatus (createRetries dvQuery k) = 0
  /\ count isEvents (createRetries dvQuery k) = 0.
Proof.
  induction k as [ | k [IH1 [IH2 IH3]]]; simpl; [ auto | ].
  rewrite !count_app, IH1, IH2, IH3. unfold count. simpl. repeat split; lia.
Qed.

Lemma count_polls (queryId : string) (j : nat) :
  count isCreate (polls queryId j) = 0
  /\ count isStatus (polls queryId j) = j
  /\ count isEvents (polls queryId j) = 0.
Proof.
  induction j as [ | j [IH1 [IH2 IH3]]]; simpl; [ auto | ].
  rewrite !count_app, IH1, IH2, IH3. unfold count. simpl. repeat split; lia.
Qed.

Lemma count_fetchRetries (queryId : string) (f : nat) :
  count isCreate (fetchRetries queryId f) = 0
  /\ count isStatus (fetchRetries queryId f) = 0
  /\ count isEvents (fetchRetries queryId f) = f.
Proof.
  induction f as [ | f [IH1 [IH2 IH3]]]; simpl; [ auto | ].
  rewrite !count_app, IH1, IH2, IH3. unfold count. simpl. repeat split; lia.
Qed.

(** Busy attempts are retried while the budget lasts. *)
Lemma createLoop_retries (dvQuery : string) (tr0 : Trace) (k : nat) :
  count isCreate tr0 = 0 ->
  k < maxCreateRetries ->
  (forall i, i < k -> busy (createAnswer R i)) ->
  createLoop dvQuery 0 tr0 = createLoop dvQuery k (tr0 ++ createRetries dvQuery k)%list.
Proof.
  intros H0. induction k as [ | k IH]; intros Hk Hbusy.
  - simpl. rewrite app_nil_r. reflexivity.
  - rewrite IH by (auto; lia).
    rewrite createLoop_step by lia.
    rewrite count_app, H0. destruct (count_createRetries dvQuery k) as [-> _].
    simpl. destruct (Hbusy k) as [e [-> H409]]; [ lia | ].
    rewrite H409. simpl.
    replace (k <? maxCreateRetries - 1)%nat with true
      by (symmetry; apply Nat.ltb_lt; unfold maxCreateRetries in *; lia).
    rewrite Nat.add_1_r, <- app_assoc. reflexivity.
Qed.

Lemma fetchLoop_retries (queryId : string) (tr0 : Trace) (f : nat) :
  count isEvents tr0 = 0 ->
  f < maxFetchRetries ->
  (forall i, i < f -> busy (eventsAnswer R i)) ->
  fetchLoop queryId 0 tr0 = fetchLoop queryId f (tr0 ++ fetchRetries queryId f)%list.
Proof.
  intros H0. induction f as [ | f IH]; intros Hf Hbusy.
  - simpl. rewrite app_nil_r. reflexivity.
  - rewrite IH by (auto; lia).
    rewrite fetchLoop_step by lia.
    rewrite count_app, H0. destruct (count_fetchRetries queryId f) as [_ [_ ->]].
    simpl. destruct (Hbusy f) as [e [-> H409]]; [ lia | ].
    rewrite H409. simpl.
    replace (f <? maxFetchRetries - 1)%nat with true
      by (symmetry; apply Nat.ltb_lt; unfold maxFetchRetries in *; lia).
    rewrite Nat.add_1_r, <- app_assoc. reflexivity.
Qed.

(** Polls that see [RUNNING] are repeated while the budget lasts. *)
Lemma pollLoop_running (queryId : string) (tr0 : Trace) (init : DVQueryStatus) (j : nat) :
  count isStatus tr0 = 0 ->
  status init = "RUNNING" ->
  j <= maxAttempts ->
  (forall i, i < j -> running (statusAnswer R i)) ->
  exists last,
    status last = "RUNNING"
    /\ pollLoop queryId 0 init tr0 = pollLoop queryId j last (tr0 ++ polls queryId j)%list.
Proof.
  intros H0 Hinit. induction j as [ | j IH]; intros Hj Hrun.
  - exists init. simpl. rewrite app_nil_r. auto.
  - destruct IH as [last [Hlast ->]]; [ lia | auto | ].
    rewrite pollLoop_step by lia.
    rewrite count_app, H0. destruct (count_polls queryId j) as [_ [-> _]].
    simpl. destruct (Hrun j) as [s [-> Hs]]; [ lia | ].
    exists s. split; [ exact Hs | ].
    rewrite Hs. simpl.
    rewrite Nat.add_1_r, <- app_assoc. reflexivity.
Qed.

(** *** How each loop is left *)

Lemma createLoop_returns (dvQuery : string) (tr0 : Trace) (k : nat)
    (v : option DVQueryResponse) :
  count isCreate tr0 = 0 ->
  k < maxCreateRetries ->
  (forall i, i < k -> busy (createAnswer R i)) ->
  createAnswer R k = Returns v ->
  createLoop dvQuery 0 tr0
  = (Returns v, (tr0 ++ createRetries dvQuery k ++ [createCall dvQuery])%list).
Proof.
  intros H0 Hk Hbusy Hans.
  rewrite (createLoop_retries dvQuery tr0 k) by assumption.
  rewrite createLoop_step by assumption.
  rewrite count_app, H0. destruct (count_createRetries dvQuery k) as [-> _].
  simpl. rewrite Hans, <- app_assoc. reflexivity.
Qed.

(** An error without [409] leaves the loop at once, whatever the budget. *)
Lemma createLoop_fatal (dvQuery : string) (tr0 : Trace) (k : nat) (e : Thrown) :
  count isCreate tr0 = 0 ->
  k < maxCreateRetries ->
  (forall i, i < k -> busy (createAnswer R i)) ->
  createAnswer R k = Throws e ->
  includes "409" (errorText e) = false ->
  createLoop dvQuery 0 tr0
  = (Throws e, (tr0 ++ createRetries dvQuery k ++ [createCall dvQuery])%list).
Proof.
  intros H0 Hk Hbusy Hans H409.
  rewrite (createLoop_retries dvQuery tr0 k) by assumption.
  rewrite createLoop_step by assumption.
  rewrite count_app, H0. destruct (count_createRetries dvQuery k) as [-> _].
  simpl. rewrite Hans, H409. simpl. rewrite <- app_assoc. reflexivity.
Qed.

(** When every attempt of the budget is busy, the last attempt is not
    retried: its error leaves the loop. *)
Lemma createLoop_exhausted (dvQuery : string) (tr0 : Trace) (e : Thrown) :
  count isCreate tr0 = 0 ->
  (forall i, i < maxCreateRetries - 1 -> busy (createAnswer R i)) ->
  createAnswer R (maxCreateRetries - 1) = Throws e ->
  createLoop dvQuery 0 tr0
  = (Throws e,
     (tr0 ++ createRetries dvQuery (maxCreateRetries - 1) ++ [createCall dvQuery])%list).
Proof.
  intros H0 Hbusy Hans.
  rewrite (createLoop_retries dvQuery tr0 (maxCreateRetries - 1))
    by (auto; unfold maxCreateRetries; lia).
  rewrite createLoop_step by (unfold maxCreateRetries; lia).
  rewrite count_app, H0.
  destruct (count_createRetries dvQuery (maxCreateRetries - 1)) as [-> _].
  simpl. rewrite Hans, Nat.ltb_irrefl, andb_false_r. rewrite <- app_assoc. reflexivity.
Qed.

Lemma fetchLoop_returns (queryId : string) (tr0 : Trace) (f : nat)
    (v : option PaginatedResponse) :
  count isEvents tr0 = 0 ->
  f < maxFetchRetries ->
  (forall i, i < f -> busy (eventsAnswer R i)) ->
  eventsAnswer R f = Returns v ->
  fetchLoop queryId 0 tr0
  = (Returns v, (tr0 ++ fetchRetries queryId f ++ [GetDVEvents queryId 50])%list).
Proof.
  intros H0 Hf Hbusy Hans.
  rewrite (fetchLoop_retries queryId tr0 f) by assumption.
  rewrite fetchLoop_step by assumption.
  rewrite count_app, H0. destruct (count_fetchRetries queryId f) as [_ [_ ->]].
  simpl. rewrite Hans, <- app_assoc. reflexivity.
Qed.

Lemma fetchLoop_exhausted (queryId : string) (tr0 : Trace) (e : Thrown) :
  count isEvents tr0 = 0 ->
  (forall i, i < maxFetchRetries - 1 -> busy (eventsAnswer R i)) ->
  eventsAnswer R (maxFetchRetries - 1) = Throws e ->
  fetchLoop queryId 0 tr0
  = (Throws e,
     (tr0 ++ fetchRetries queryId (maxFetchRetries - 1) ++ [GetDVEvents queryId 50])%list).
Proof.
  intros H0 Hbusy Hans.
  rewrite (fetchLoop_retries queryId tr0 (maxFetchRetries - 1))
    by (auto; unfold maxFetchRetries; lia).
  rewrite fetchLoop_step by (unfold maxFetchRetries; lia).
  rewrite count_app, H0.
  destruct (count_fetchRetries queryId (maxFetchRetries - 1)) as [_ [_ ->]].
  simpl. rewrite Hans, Nat.ltb_irrefl, andb_false_r. rewrite <- app_assoc. reflexivity.
Qed.

Lemma pollLoop_settles (queryId : string) (tr0 : Trace) (init : DVQueryStatus)
    (j : nat) (s : DVQueryStatus) :
  count isStatus tr0 = 0 ->
  status init = "RUNNING" ->
  settled j s ->
  pollLoop queryId 0 init tr0 = (Returns s, (tr0 ++ polls queryId (S j))%list).
Proof.
  intros H0 Hinit (Hj & Hrun & Hans & Hs).
  destruct (pollLoop_running queryId tr0 init j H0 Hinit) as [last [_ ->]];
    [ lia | assumption | ].
  rewrite pollLoop_step by assumption.
  rewrite count_app, H0. destruct (count_polls queryId j) as [_ [-> _]].
  simpl. rewrite Hans.
  apply String.eqb_neq in Hs. rewrite Hs. simpl.
  rewrite <- app_assoc. reflexivity.
Qed.

Lemma pollLoop_times_out (queryId : string) (tr0 : Trace) (init : DVQueryStatus) :
  count isStatus tr0 = 0 ->
  status init = "RUNNING" ->
  (forall i, i < maxAttempts -> running (statusAnswer R i)) ->
  exists last,
    status last = "RUNNING"
    /\ pollLoop queryId 0 init tr0
       = (Returns last, (tr0 ++ polls queryId maxAttempts)%list).
Proof.
  intros H0 Hinit Hrun.
  destruct (pollLoop_running queryId tr0 init maxAttempts H0 Hinit)
    as [last [Hlast ->]]; [ lia | assumption | ].
  exists last. split; [ assumption | ].
  apply pollLoop_done. lia.
Qed.

(** The fetch loop issues no status call and no creation call. *)
Lemma fetchLoop_footprint (queryId : string) (p : Effect -> bool) :
  (forall limit, p (GetDVEvents queryId limit) = false) ->
  (forall ms, p (Wait ms) = false) ->
  forall n fetchAttempts tr,
    maxFetchRetries - fetchAttempts = n ->
    filter p (snd (fetchLoop queryId fetchAttempts tr)) = filter p tr.
Proof.
  intros Hev Hwait. induction n as [ | n IH]; intros a tr Hn.
  - rewrite fetchLoop_done by lia. reflexivity.
  - rewrite fetchLoop_step by lia.
    destruct (eventsAnswer R (count isEvents tr)) as [v | e]; simpl.
    + rewrite filter_app. simpl. rewrite Hev, app_nil_r. reflexivity.
    + destruct (includes "409" (errorText e) && (a <? maxFetchRetries - 1)%nat).
      * rewrite IH by lia. rewrite filter_app. simpl.
        rewrite Hev, Hwait, app_nil_r. reflexivity.
      * simpl. rewrite filter_app. simpl. rewrite Hev, app_nil_r. reflexivity.
Qed.

Lemma fetchLoop_fetches (queryId : string) :
  forall n fetchAttempts tr,
    maxFetchRetries - fetchAttempts = n ->
    fetchAttempts < maxFetchRetries ->
    count isEvents tr < count isEvents (snd (fetchLoop queryId fetchAttempts tr)).
Proof.
  induction n as [ | n IH]; intros a tr Hn Ha; [ lia | ].
  rewrite fetchLoop_step by lia.
  destruct (eventsAnswer R (count isEvents tr)) as [v | e]; simpl.
  - rewrite count_app. unfold count at 3. simpl. lia.
  - destruct (includes "409" (errorText e)); simpl.
    + destruct (a <? maxFetchRetries - 1)%nat eqn:Hlt.
      * apply Nat.ltb_lt in Hlt.
        specialize (IH (a + 1)
                      (tr ++ [GetDVEvents queryId 50; Wait 2000])%list).
        rewrite count_app in IH. unfold count at 2 in IH. simpl in IH.
        assert (Hmore : count isEvents tr + 1
                        < count isEvents
                            (snd (fetchLoop queryId (a + 1)
                                    (tr ++ [GetDVEvents queryId 50; Wait 2000])%list)))
          by (apply IH; lia).
        lia.
      * simpl. rewrite count_app. unfold count at 3. simpl. lia.
    + rewrite count_app. unfold count at 3. simpl. lia.
Qed.

(** *** The handler, phase by phase *)

Lemma lookup_wellFormed (params : Params) (tr : Trace) :
  wellFormed (hash params) = true ->
  lookup params tr
  = bind (createLoop (dvQueryOf (hash params)) 0)
      (fun created =>
         match created with
         | None => ret (errorResult slotBusyText)
         | Some result => pollPhase (hashFieldOf (hash params)) (hash params) result
         end) tr.
Proof.
  unfold wellFormed, Hash.lookup. intros Hwf.
  apply andb_true_iff in Hwf. destruct Hwf as [Hlen Hhex].
  rewrite Hhex. apply orb_true_iff in Hlen.
  destruct Hlen as [-> | ->]; simpl; rewrite ?andb_false_r; reflexivity.
Qed.

Lemma lookup_malformed (params : Params) (tr : Trace) :
  wellFormed (hash params) = false ->
  exists detail,
    lookup params tr = (Returns (errorResult ("Invalid hash format. " ++ detail)), tr).
Proof.
  unfold wellFormed, Hash.lookup. intros Hwf.
  destruct (String.length (hash params) =? 40)%nat;
    destruct (String.length (hash params) =? 64)%nat;
    simpl in *; try rewrite Hwf; simpl; eexists; reflexivity.
Qed.

Lemma handle_created (params : Params) (k : nat) (result : DVQueryResponse) :
  wellFormed (hash params) = true ->
  created k result ->
  handleHashLookup params []
  = tryCatch (pollPhase (hashFieldOf (hash params)) (hash params) result) rescue
      (createRetries (dvQueryOf (hash params)) k
       ++ [createCall (dvQueryOf (hash params))])%list.
Proof.
  intros Hwf (Hk & Hbusy & Hans).
  unfold Hash.handleHashLookup, tryCatch. rewrite lookup_wellFormed by assumption.
  unfold bind.
  rewrite (createLoop_returns _ [] k (Some result)) by (auto; reflexivity).
  reflexivity.
Qed.

Lemma count_after_create (dvQuery : string) (k : nat) :
  count isStatus (createRetries dvQuery k ++ [createCall dvQuery])%list = 0
  /\ count isEvents (createRetries dvQuery k ++ [createCall dvQuery])%list = 0.
Proof.
  rewrite !count_app.
  destruct (count_createRetries dvQuery k) as [_ [-> ->]]. split; reflexivity.
Qed.

Lemma pollPhase_times_out (hashField h : string) (result : DVQueryResponse)
    (tr0 : Trace) :
  count isStatus tr0 = 0 ->
  (forall i, i < maxAttempts -> running (statusAnswer R i)) ->
  pollPhase hashField h result tr0
  = (Returns (textResult (stillRunningText (queryId result))),
     (tr0 ++ polls (queryId result) maxAttempts)%list).
Proof.
  intros H0 Hrun. unfold Hash.pollPhase, bind.
  destruct (pollLoop_times_out (queryId result) tr0 (mkDVQueryStatus "RUNNING" None))
    as [last [Hlast ->]]; [ assumption | reflexivity | assumption | ].
  rewrite Hlast. reflexivity.
Qed.

Lemma pollPhase_failed (hashField h : string) (result : DVQueryResponse)
    (tr0 : Trace) (j : nat) (s : DVQueryStatus) :
  count isStatus tr0 = 0 ->
  settled j s ->
  status s = "FAILED" ->
  pollPhase hashField h result tr0
  = (Returns (errorResult ("DV hash query failed: "
                           ++ orElse (responseError s) "Unknown error")),
     (tr0 ++ polls (queryId result) (S j))%list).
Proof.
  intros H0 Hset Hs. unfold Hash.pollPhase, bind.
  rewrite (pollLoop_settles _ tr0 _ j s) by (auto; reflexivity).
  rewrite Hs. reflexivity.
Qed.

(** Every settled status other than [FAILED] goes on to the fetch. *)
Lemma pollPhase_fetches (hashField h : string) (result : DVQueryResponse)
    (tr0 : Trace) (j : nat) (s : DVQueryStatus) :
  count isStatus tr0 = 0 ->
  settled j s ->
  status s <> "FAILED" ->
  pollPhase hashField h result tr0
  = fetchPhase hashField h result (tr0 ++ polls (queryId result) (S j))%list.
Proof.
  intros H0 Hset Hs. unfold Hash.pollPhase, bind.
  rewrite (pollLoop_settles _ tr0 _ j s) by (auto; reflexivity).
  destruct Hset as (_ & _ & _ & Hrun).
  apply String.eqb_neq in Hs. apply String.eqb_neq in Hrun.
  rewrite Hs, Hrun. reflexivity.
Qed.

Lemma fetchPhase_trace (hashField h : string) (result : DVQueryResponse) (tr : Trace) :
  snd (fetchPhase hashField h result tr) = snd (fetchLoop (queryId result) 0 tr).
Proof.
  unfold Hash.fetchPhase, bind, ret.
  destruct (fetchLoop (queryId result) 0 tr) as [[v | e] tr']; reflexivity.
Qed.

Lemma tryCatch_rescue_trace (m : Eff Trace ToolResult) (tr : Trace) :
  snd (tryCatch m rescue tr) = snd (m tr).
Proof.
  unfold tryCatch, rescue, ret. destruct (m tr) as [[v | e] tr']; reflexivity.
Qed.

Lemma filter_none (p : Effect -> bool) (tr : Trace) :
  count p tr = 0 -> filter p tr = [].
Proof. unfold count. apply length_zero_iff_nil. Qed.

Lemma statusCalls_polls (queryId : string) (j : nat) :
  filter isStatus (polls queryId j) = repeat (GetDVQueryStatus queryId) j.
Proof.
  induction j as [ | j IH]; [ reflexivity | ].
  simpl polls. rewrite filter_app, IH. simpl. symmetry. apply repeat_cons.
Qed.

(** *** General consequences used for the claims *)

(** With every creation attempt of the budget busy, the error of the last
    attempt reaches the outer [catch]. *)
Lemma create_exhaustion_propagates (params : Params) (e : Thrown) :
  wellFormed (hash params) = true ->
  (forall i, i < maxCreateRetries - 1 -> busy (createAnswer R i)) ->
  createAnswer R (maxCreateRetries - 1) = Throws e ->
  handleHashLookup params []
  = (Returns (errorResult ("Error hunting hash: " ++ errorText e)),
     (createRetries (dvQueryOf (hash params)) (maxCreateRetries - 1)
      ++ [createCall (dvQueryOf (hash params))])%list).
Proof.
  intros Hwf Hbusy Hans.
  unfold Hash.handleHashLookup, tryCatch. rewrite lookup_wellFormed by assumption.
  unfold bind.
  rewrite (createLoop_exhausted _ [] e) by (auto; reflexivity).
  reflexivity.
Qed.

(** With the job settled and every fetch attempt of the budget busy, the
    error of the last attempt reaches the outer [catch]. *)
Lemma fetch_exhaustion_propagates (params : Params) (k : nat)
    (result : DVQueryResponse) (j : nat) (s : DVQueryStatus) (e : Thrown) :
  wellFormed (hash params) = true ->
  created k result ->
  settled j s ->
  status s <> "FAILED" ->
  (forall i, i < maxFetchRetries - 1 -> busy (eventsAnswer R i)) ->
  eventsAnswer R (maxFetchRetries - 1) = Throws e ->
  fst (handleHashLookup params [])
  = Returns (errorResult ("Error hunting hash: " ++ errorText e)).
Proof.
  intros Hwf Hcreated Hset Hs Hbusy Hans.
  rewrite (handle_created params k result) by assumption.
  destruct (count_after_create (dvQueryOf (hash params)) k) as [Hst Hev].
  unfold tryCatch.
  rewrite (pollPhase_fetches _ _ _ _ j s) by assumption.
  unfold Hash.fetchPhase, bind.
  rewrite (fetchLoop_exhausted _ _ e); try assumption.
  - reflexivity.
  - rewrite count_app, Hev. destruct (count_polls (queryId result) (S j)) as [_ [_ ->]].
    reflexivity.
Qed.

(** A job that settles in any state other than [FAILED], [CANCELED]
    included, has its events fetched. *)
Lemma settled_job_is_fetched (params : Params) (k : nat)
    (result : DVQueryResponse) (j : nat) (s : DVQueryStatus) :
  wellFormed (hash params) = true ->
  created k result ->
  settled j s ->
  status s <> "FAILED" ->
  0 < count isEvents (snd (handleHashLookup params [])).
Proof.
  intros Hwf Hcreated Hset Hs.
  rewrite (handle_created params k result) by assumption.
  destruct (count_after_create (dvQueryOf (hash params)) k) as [Hst Hev].
  rewrite tryCatch_rescue_trace.
  rewrite (pollPhase_fetches _ _ _ _ j s) by assumption.
  rewrite fetchPhase_trace.
  eapply Nat.le_lt_trans; [ apply Nat.le_0_l | ].
  apply (fetchLoop_fetches (queryId result) maxFetchRetries 0);
    unfold maxFetchRetries; lia.
Qed.

Lemma allHex_all (h : string) (c : ascii) :
  In c (list_ascii_of_string h) -> isHexDigit c = false -> allHex h = false.
Proof.
  induction h as [ | c' h IH]; simpl; [ contradiction | ].
  intros [-> | Hin] Hc.
  - rewrite Hc. reflexivity.
  - rewrite IH by assumption. apply andb_false_r.
Qed.

(** What the two checks reject, in words: a length that is neither 40 nor
    64, or a character that is not a hexadecimal digit. *)
Lemma malformed_not_wellFormed (h : string) :
  (String.length h <> 40 /\ String.length h <> 64)
  \/ (exists c, In c (list_ascii_of_string h) /\ isHexDigit c = false) ->
  wellFormed h = false.
Proof.
  unfold wellFormed. intros [[H40 H64] | [c [Hin Hc]]].
  - apply Nat.eqb_neq in H40. apply Nat.eqb_neq in H64. rewrite H40, H64. reflexivity.
  - apply andb_false_iff. right. unfold hexOnly.
    destruct h as [ | c' h']; [ reflexivity | ].
    exact (allHex_all _ c Hin Hc).
Qed.

(** Every result of the handler carries the error flag or is one of the
    four results of [NonFailure]. *)
Lemma fetchPhase_shape (hashField h : string) (result : DVQueryResponse)
    (tr tr' : Trace) (r : ToolResult) :
  fetchPhase hashField h result tr = (Returns r, tr') -> NonFailure r.
Proof.
  unfold Hash.fetchPhase, bind, ret, Hash.present.
  destruct (fetchLoop (queryId result) 0 tr) as [[[events | ] | e] tr0];
    intros Heq; inversion Heq; subst; clear Heq.
  - destruct (data events) as [[ | e rest] | ]; constructor.
  - constructor.
Qed.

Lemma pollPhase_shape (hashField h : string) (result : DVQueryResponse)
    (tr tr' : Trace) (r : ToolResult) :
  pollPhase hashField h result tr = (Returns r, tr') ->
  isError r = true \/ NonFailure r.
Proof.
  unfold Hash.pollPhase, bind, ret.
  destruct (pollLoop (queryId result) 0 (mkDVQueryStatus "RUNNING" None) tr)
    as [[polled | e] tr0]; [ | discriminate ].
  destruct (String.eqb (status polled) "FAILED").
  - intros Heq; inversion Heq; subst. left. reflexivity.
  - destruct (String.eqb (status polled) "RUNNING").
    + intros Heq; inversion Heq; subst. right. constructor.
    + intros Heq. right. exact (fetchPhase_shape _ _ _ _ _ _ Heq).
Qed.

Lemma handle_shape (params : Params) (tr tr' : Trace) (r : ToolResult) :
  handleHashLookup params tr = (Returns r, tr') ->
  isError r = true \/ NonFailure r.
Proof.
  unfold Hash.handleHashLookup, tryCatch, rescue, ret.
  destruct (lookup params tr) as [[r0 | e] tr0] eqn:Hlookup;
    intros Heq; inversion Heq; subst; clear Heq; [ | left; reflexivity ].
  destruct (wellFormed (hash params)) eqn:Hwf.
  - rewrite lookup_wellFormed in Hlookup by assumption.
    unfold bind, ret in Hlookup.
    destruct (createLoop (dvQueryOf (hash params)) 0 tr)
      as [[[result | ] | e] tr1]; [ | | discriminate ].
    + exact (pollPhase_shape _ _ _ _ _ _ Hlookup).
    + inversion Hlookup; subst. left. reflexivity.
  - destruct (lookup_malformed params tr Hwf) as [detail Hbad].
    rewrite Hbad in Hlookup. inversion Hlookup; subst. left. reflexivity.
Qed.

(** *** Where the two soft outcomes of the retry loops come from *)

Lemma NonFailure_unflagged (r : ToolResult) : NonFailure r -> isError r = false.
Proof. intros [ | | | ]; reflexivity. Qed.

(** The creation loop is left without a result only when a creation call
    returned nothing. *)
Lemma createLoop_none (dvQuery : string) :
  forall n createAttempts tr tr',
    maxCreateRetries - createAttempts = n ->
    createAttempts < maxCreateRetries ->
    createLoop dvQuery createAttempts tr = (Returns None, tr') ->
    exists i, createAnswer R i = Returns None.
Proof.
  induction n as [ | n IH]; intros a tr tr' Hn Ha; [ lia | ].
  rewrite createLoop_step by assumption.
  destruct (createAnswer R (count isCreate tr)) as [v | e] eqn:Hans.
  - intros Heq. inversion Heq; subst. eauto.
  - destruct (includes "409" (errorText e)); simpl; [ | discriminate ].
    destruct (a <? maxCreateRetries - 1)%nat eqn:Hlt; [ | discriminate ].
    apply Nat.ltb_lt in Hlt. apply IH; lia.
Qed.

Lemma fetchLoop_none (queryId : string) :
  forall n fetchAttempts tr tr',
    maxFetchRetries - fetchAttempts = n ->
    fetchAttempts < maxFetchRetries ->
    fetchLoop queryId fetchAttempts tr = (Returns None, tr') ->
    exists i, eventsAnswer R i = Returns None.
Proof.
  induction n as [ | n IH]; intros a tr tr' Hn Ha; [ lia | ].
  rewrite fetchLoop_step by assumption.
  destruct (eventsAnswer R (count isEvents tr)) as [v | e] eqn:Hans.
  - intros Heq. inversion Heq; subst. eauto.
  - destruct (includes "409" (errorText e)); simpl; [ | discriminate ].
    destruct (a <? maxFetchRetries - 1)%nat eqn:Hlt; [ | discriminate ].
    apply Nat.ltb_lt in Hlt. apply IH; lia.
Qed.

(** The slot-busy result is returned only when a creation call returned
    nothing: no run of busy attempts, however long, ends in it. *)
Lemma slot_busy_needs_empty_answer (params : Params) (tr : Trace) :
  fst (handleHashLookup params tr) = Returns (errorResult slotBusyText) ->
  exists i, createAnswer R i = Returns None.
Proof.
  unfold Hash.handleHashLookup, tryCatch, rescue, ret.
  destruct (lookup params tr) as [[r | e] tr0] eqn:Hlookup; simpl;
    intros Heq; [ | discriminate Heq ].
  injection Heq as ->.
  destruct (wellFormed (hash params)) eqn:Hwf.
  - rewrite lookup_wellFormed in Hlookup by assumption.
    unfold bind, ret in Hlookup.
    destruct (createLoop (dvQueryOf (hash params)) 0 tr)
      as [[[result | ] | e] tr1] eqn:Hloop; [ | | discriminate ].
    + exfalso. revert Hlookup. unfold Hash.pollPhase, bind, ret.
      destruct (pollLoop (queryId result) 0 (mkDVQueryStatus "RUNNING" None) tr1)
        as [[polled | e] tr2]; [ | discriminate ].
      destruct (String.eqb (status polled) "FAILED"); [ discriminate | ].
      destruct (String.eqb (status polled) "RUNNING"); [ discriminate | ].
      intros Hfetch. apply fetchPhase_shape, NonFailure_unflagged in Hfetch.
      discriminate Hfetch.
    + apply (createLoop_none (dvQueryOf (hash params)) maxCreateRetries 0 tr tr1);
        [ reflexivity | unfold maxCreateRetries; lia | assumption ].
  - destruct (lookup_malformed params tr Hwf) as [detail Hbad].
    rewrite Hbad in Hlookup. discriminate Hlookup.
Qed.

(** The events-not-available result is returned only when a fetch returned
    nothing. *)
Lemma not_available_needs_empty_answer (params : Params) (tr : Trace)
    (queryId' : string) :
  fst (handleHashLookup params tr) = Returns (textResult (notAvailableText queryId')) ->
  exists i, eventsAnswer R i = Returns None.
Proof.
  unfold Hash.handleHashLookup, tryCatch, rescue, ret.
  destruct (lookup params tr) as [[r | e] tr0] eqn:Hlookup; simpl;
    intros Heq; [ | discriminate Heq ].
  injection Heq as ->.
  destruct (wellFormed (hash params)) eqn:Hwf.
  - rewrite lookup_wellFormed in Hlookup by assumption.
    unfold bind, ret in Hlookup.
    destruct (createLoop (dvQueryOf (hash params)) 0 tr)
      as [[[result | ] | e] tr1] eqn:Hloop; [ | discriminate | discriminate ].
    revert Hlookup. unfold Hash.pollPhase, bind, ret.
    destruct (pollLoop (queryId result) 0 (mkDVQueryStatus "RUNNING" None) tr1)
      as [[polled | e] tr2]; [ | discriminate ].
    destruct (String.eqb (status polled) "FAILED"); [ discriminate | ].
    destruct (String.eqb (status polled) "RUNNING"); [ discriminate | ].
    unfold Hash.fetchPhase, bind, ret, Hash.present.
    destruct (fetchLoop (queryId result) 0 tr2)
      as [[[events | ] | e] tr3] eqn:Hfetch; [ | | discriminate ].
    + destruct (data events) as [[ | ev rest] | ]; discriminate.
    + intros _. apply (fetchLoop_none (queryId result) maxFetchRetries 0 tr2 tr3);
        [ reflexivity | unfold maxFetchRetries; lia | assumption ].
  - destruct (lookup_malformed params tr Hwf) as [detail Hbad].
    rewrite Hbad in Hlookup. discriminate Hlookup.
Qed.

(** *** The claims about the lifecycle *)

(** C4. Once a poll observes a status other than [RUNNING], no further
    status call is issued: when poll number [j] (counting from 0) is the
    first to see such a status, the status calls of the whole invocation are
    exactly [j + 1] calls for the queryId assigned at creation; when all 30
    polls see [RUNNING], they are exactly 30. *)
Theorem status_calls_stop_at_first_terminal (params : Params) (k : nat)
    (result : DVQueryResponse) :
  wellFormed (hash params) = true ->
  created k result ->
  (forall j s,
      settled j s ->
      filter isStatus (snd (handleHashLookup params []))
      = repeat (GetDVQueryStatus (queryId result)) (S j)
      /\ count isStatus (snd (handleHashLookup params [])) = S j)
  /\ ((forall i, i < maxAttempts -> running (statusAnswer R i)) ->
       filter isStatus (snd (handleHashLookup params []))
       = repeat (GetDVQueryStatus (queryId result)) 30
       /\ count isStatus (snd (handleHashLookup params [])) = 30).
Proof.
  intros Hwf Hcreated.
  rewrite (handle_created params k result) by assumption.
  destruct (count_after_create (dvQueryOf (hash params)) k) as [Hst Hev].
  rewrite tryCatch_rescue_trace.
  assert (Hlen : forall tr n,
             filter isStatus tr = repeat (GetDVQueryStatus (queryId result)) n ->
             count isStatus tr = n)
    by (intros tr n Heq; unfold count; rewrite Heq; apply repeat_length).
  split.
  - intros j s Hset.
    assert (Hcalls :
              filter isStatus
                (snd (pollPhase (hashFieldOf (hash params)) (hash params) result
                        (createRetries (dvQueryOf (hash params)) k
                         ++ [createCall (dvQueryOf (hash params))])%list))
              = repeat (GetDVQueryStatus (queryId result)) (S j)).
    { destruct (string_dec (status s) "FAILED") as [Hfailed | Hother].
      - rewrite (pollPhase_failed _ _ _ _ j s) by assumption.
        cbn [snd]. rewrite filter_app, (filter_none _ _ Hst), statusCalls_polls.
        reflexivity.
      - rewrite (pollPhase_fetches _ _ _ _ j s) by assumption.
        rewrite fetchPhase_trace.
        rewrite (fetchLoop_footprint (queryId result) isStatus
                   (fun _ => eq_refl) (fun _ => eq_refl) maxFetchRetries 0)
          by reflexivity.
        rewrite filter_app, (filter_none _ _ Hst), statusCalls_polls.
        reflexivity. }
    split; [ exact Hcalls | exact (Hlen _ _ Hcalls) ].
  - intros Hrun.
    rewrite pollPhase_times_out by assumption.
    cbn [snd].
    assert (Hcalls :
              filter isStatus
                ((createRetries (dvQueryOf (hash params)) k
                  ++ [createCall (dvQueryOf (hash params))])
                 ++ polls (queryId result) maxAttempts)%list
              = repeat (GetDVQueryStatus (queryId result)) 30)
      by (rewrite filter_app, (filter_none _ _ Hst), statusCalls_polls; reflexivity).
    split; [ exact Hcalls | exact (Hlen _ _ Hcalls) ].
Qed.

(** C5 (amended). A creation attempt that fails with an error whose message
    text does not carry [409] ends the invocation at once with that error:
    after [k] busy attempts, whatever is left of the budget, the failing
    attempt is the last creation call, nothing is polled or fetched, and the
    error text is returned with the error flag.  The test is on the message
    text, not on the HTTP status. *)
Theorem fatal_create_error_is_not_retried (params : Params) (k : nat) (e : Thrown) :
  wellFormed (hash params) = true ->
  k < maxCreateRetries ->
  (forall i, i < k -> busy (createAnswer R i)) ->
  createAnswer R k = Throws e ->
  includes "409" (errorText e) = false ->
  handleHashLookup params []
  = (Returns (errorResult ("Error hunting hash: " ++ errorText e)),
     (createRetries (dvQueryOf (hash params)) k
      ++ [createCall (dvQueryOf (hash params))])%list)
  /\ count isCreate (snd (handleHashLookup params [])) = S k.
Proof.
  intros Hwf Hk Hbusy Hans H409.
  assert (Hrun : handleHashLookup params []
                 = (Returns (errorResult ("Error hunting hash: " ++ errorText e)),
                    (createRetries (dvQueryOf (hash params)) k
                     ++ [createCall (dvQueryOf (hash params))])%list)).
  { unfold Hash.handleHashLookup, tryCatch. rewrite lookup_wellFormed by assumption.
    unfold bind.
    rewrite (createLoop_fatal _ [] k e) by (auto; reflexivity).
    reflexivity. }
  split; [ exact Hrun | ].
  rewrite Hrun. cbn [snd]. rewrite count_app.
  destruct (count_createRetries (dvQueryOf (hash params)) k) as [-> _].
  unfold count. simpl. lia.
Qed.

(** C6. When all 30 polls see [RUNNING], the invocation returns the
    still-running text with the queryId assigned at creation, without the
    error flag, after exactly 30 status calls and no event fetch. *)
Theorem poll_budget_exhausted_times_out (params : Params) (k : nat)
    (result : DVQueryResponse) :
  wellFormed (hash params) = true ->
  created k result ->
  (forall i, i < maxAttempts -> running (statusAnswer R i)) ->
  handleHashLookup params []
  = (Returns (textResult
                ("Query still running after 30s. Use s1_dv_get_events with queryId: "
                 ++ queryId result)),
     ((createRetries (dvQueryOf (hash params)) k
       ++ [createCall (dvQueryOf (hash params))])
      ++ polls (queryId result) 30)%list)
  /\ count isStatus (snd (handleHashLookup params [])) = 30
  /\ count isEvents (snd (handleHashLookup params [])) = 0.
Proof.
  intros Hwf Hcreated Hrun.
  destruct (count_after_create (dvQueryOf (hash params)) k) as [Hst Hev].
  assert (Hout : handleHashLookup params []
                 = (Returns (textResult (stillRunningText (queryId result))),
                    ((createRetries (dvQueryOf (hash params)) k
                      ++ [createCall (dvQueryOf (hash params))])
                     ++ polls (queryId result) maxAttempts)%list)).
  { rewrite (handle_created params k result) by assumption.
    unfold tryCatch. rewrite pollPhase_times_out by assumption. reflexivity. }
  split; [ exact Hout | ].
  rewrite Hout. cbn [snd].
  rewrite (count_app isStatus), (count_app isEvents), Hst, Hev.
  destruct (count_polls (queryId result) maxAttempts) as [_ [-> ->]].
  split; reflexivity.
Qed.

(** C10. The handler never throws: it always returns a result; an error
    thrown anywhere in its body (out of the creation, polling or fetch
    phase included) is returned as a text result with the error flag; every
    result other than the four of [NonFailure] (still running, events not
    available, no activity, the report) carries the error flag; and a hash
    whose length is neither 40 nor 64, or that contains a character that is
    not a hexadecimal digit, is rejected with an error result before any
    call is made. *)
Theorem handler_never_throws (params : Params) (tr : Trace) :
  (exists r tr', handleHashLookup params tr = (Returns r, tr'))
  /\ (forall e tr',
        lookup params tr = (Throws e, tr') ->
        handleHashLookup params tr
        = (Returns (mkToolResult
                      [TextContent ("Error hunting hash: " ++ errorText e)] true),
           tr'))
  /\ (forall r tr',
        handleHashLookup params tr = (Returns r, tr') ->
        isError r = true \/ NonFailure r)
  /\ ((String.length (hash params) <> 40 /\ String.length (hash params) <> 64)
       \/ (exists c, In c (list_ascii_of_string (hash params))
                     /\ isHexDigit c = false) ->
       exists r,
         handleHashLookup params tr = (Returns r, tr) /\ isError r = true).
Proof.
  split; [ | split; [ | split ] ].
  - unfold Hash.handleHashLookup, tryCatch, rescue, ret.
    destruct (lookup params tr) as [[r | e] tr']; eauto.
  - unfold Hash.handleHashLookup, tryCatch, rescue, ret.
    intros e tr' ->. reflexivity.
  - intros r tr'. apply handle_shape.
  - unfold Hash.handleHashLookup, tryCatch, rescue, ret.
    intros Hbad. apply malformed_not_wellFormed in Hbad.
    destruct (lookup_malformed params tr Hbad) as [detail ->].
    exists (errorResult ("Invalid hash format. " ++ detail)). split; reflexivity.
Qed.

End Lifecycle.

(** The busy answer of the samples is what [request] throws for an HTTP
    409 when the sanitizer leaves the message as it is, and it meets the
    condition both retry loops test. *)
Example conflict_from_request :
  fst (Rest.request Rest.plainSanitizer Rest.http409 Rest.noTimers) = Throws conflict
  /\ includes "409" (errorText conflict) = true.
Proof. split; reflexivity. Qed.

Example happy_path_calls :
  snd (run happyPath sha256Hash)
  = [CreateDVQuery (dvQueryOf sha256Hash) fromISO toISO;
     Wait 1000; GetDVQueryStatus "q1";
     Wait 1000; GetDVQueryStatus "q1";
     Wait 1000; GetDVQueryStatus "q1";
     GetDVEvents "q1" 50].
Proof. reflexivity. Qed.

Example happy_path_result :
  fst (run happyPath sha256Hash)
  = Returns (textResult
      ("Hash SHA256 " ++ sha256Hash ++ newline
       ++ "Seen on 2 endpoint(s) | 2 event(s) in last 14 days:" ++ newline ++ newline
       ++ bullet ++ " host-a | File Creation | cmd.exe | unknown" ++ newline
       ++ bullet ++ " host-b | Process Creation | powershell.exe | unknown")).
Proof. reflexivity. Qed.

(** *** Where the handler departs from the specified outcomes *)

(** C1. With all 6 creation attempts answering HTTP 409, the invocation
    does not end in the slot-busy result: the sixth error is rethrown by the
    loop (its guard [createAttempts < maxCreateRetries - 1] is false) and is
    returned by the outer [catch] as a hunting error. *)
Theorem slot_busy_exhaustion_escapes :
  fst (run slotAlwaysBusy sha1Hash)
  = Returns (errorResult "Error hunting hash: HTTP 409: Conflict - query slot in use")
  /\ fst (run slotAlwaysBusy sha1Hash) <> Returns (errorResult slotBusyText)
  /\ count isCreate (snd (run slotAlwaysBusy sha1Hash)) = 6.
Proof.
  assert (Hrun : run slotAlwaysBusy sha1Hash
                 = (Returns (errorResult ("Error hunting hash: " ++ errorText conflict)),
                    (createRetries slotAlwaysBusy (dvQueryOf sha1Hash) 5
                     ++ [createCall slotAlwaysBusy (dvQueryOf sha1Hash)])%list)).
  { apply (create_exhaustion_propagates slotAlwaysBusy sampleTimeAgo sampleTruncate
             (mkParams sha1Hash) conflict).
    - reflexivity.
    - intros i _. exists conflict. split; reflexivity.
    - reflexivity. }
  rewrite Hrun. repeat split.
  intros Heq. discriminate Heq.
Qed.

(** The slot-busy result is returned when a creation call returns nothing,
    which is the only way the creation loop is left without a result. *)
Example slot_busy_on_empty_answer :
  fst (handleHashLookup
         (mkRemote (fun _ => Returns None) (fun _ => Returns finishedStatus)
            (fun _ => Returns (Some emptyPage)) toISO fromISO)
         sampleTimeAgo sampleTruncate (mkParams sha1Hash) [])
  = Returns (errorResult slotBusyText).
Proof. reflexivity. Qed.

(** C2. With the job finished and all 5 fetch attempts answering HTTP 409,
    the invocation does not end in the events-not-available result: the
    fifth error is rethrown by the loop and returned by the outer [catch]
    as a hunting error, without the queryId. *)
Theorem fetch_exhaustion_escapes :
  fst (run eventsNeverReady sha1Hash)
  = Returns (errorResult "Error hunting hash: HTTP 409: Conflict - query slot in use")
  /\ fst (run eventsNeverReady sha1Hash) <> Returns (textResult (notAvailableText "q1"))
  /\ count isEvents (snd (run eventsNeverReady sha1Hash)) = 5.
Proof.
  assert (Hfst : fst (run eventsNeverReady sha1Hash)
                 = Returns (errorResult ("Error hunting hash: " ++ errorText conflict))).
  { apply (fetch_exhaustion_propagates eventsNeverReady sampleTimeAgo sampleTruncate
             (mkParams sha1Hash) 0 q1 0 finishedStatus conflict).
    - reflexivity.
    - repeat split; [ unfold maxCreateRetries; lia | intros i Hi; lia ].
    - repeat split; [ unfold maxAttempts; lia | intros i Hi; lia | discriminate ].
    - discriminate.
    - intros i _. exists conflict. split; reflexivity.
    - reflexivity. }
  rewrite Hfst. repeat split.
  intros Heq. discriminate Heq.
Qed.

(** The events-not-available result is returned when a fetch returns
    nothing. *)
Example not_available_on_empty_answer :
  fst (handleHashLookup
         (mkRemote (fun _ => Returns (Some q1)) (fun _ => Returns finishedStatus)
            (fun _ => Returns None) toISO fromISO)
         sampleTimeAgo sampleTruncate (mkParams sha1Hash) [])
  = Returns (textResult (notAvailableText "q1")).
Proof. reflexivity. Qed.

(** C3. A job whose first status other than [RUNNING] is [CANCELED] is not
    turned into a terminal outcome: only [FAILED] and [RUNNING] are tested
    after the polling loop, so the handler goes on to fetch the events of
    the canceled job and reports on them. *)
Theorem canceled_job_enters_fetch :
  run canceledJob sha1Hash
  = (Returns (textResult
                ("No activity found for SHA1 " ++ sha1Hash ++ " in the last 14 days.")),
     [CreateDVQuery (dvQueryOf sha1Hash) fromISO toISO;
      Wait 1000; GetDVQueryStatus "q1";
      Wait 1000; GetDVQueryStatus "q1";
      Wait 1000; GetDVQueryStatus "q1";
      GetDVEvents "q1" 50]).
Proof. reflexivity. Qed.

(** *** The confirmed claims at sample invocations *)

Lemma status_calls_witness :
  created happyPath 0 q1
  /\ settled happyPath 2 finishedStatus
  /\ count isStatus (snd (run happyPath sha256Hash)) = 3.
Proof.
  assert (Hcreated : created happyPath 0 q1)
    by (repeat split; [ unfold maxCreateRetries; lia | intros i Hi; lia ]).
  assert (Hsettled : settled happyPath 2 finishedStatus).
  { repeat split; [ unfold maxAttempts; lia | | discriminate ].
    intros i Hi. exists runningStatus.
    destruct i as [ | [ | i]]; [ split; reflexivity | split; reflexivity | lia ]. }
  split; [ exact Hcreated | split; [ exact Hsettled | ] ].
  exact (proj2 (proj1 (status_calls_stop_at_first_terminal happyPath
                         sampleTimeAgo sampleTruncate (mkParams sha256Hash) 0 q1
                         eq_refl Hcreated)
                  2 finishedStatus Hsettled)).
Defined.

Lemma fatal_create_error_witness :
  run serverFails sha1Hash
  = (Returns (errorResult "Error hunting hash: HTTP 500: Internal Server Error - boom"),
     [CreateDVQuery (dvQueryOf sha1Hash) fromISO toISO; Wait 3000;
      CreateDVQuery (dvQueryOf sha1Hash) fromISO toISO; Wait 3000;
      CreateDVQuery (dvQueryOf sha1Hash) fromISO toISO])
  /\ count isCreate (snd (run serverFails sha1Hash)) = 3.
Proof.
  apply (fatal_create_error_is_not_retried serverFails sampleTimeAgo sampleTruncate
           (mkParams sha1Hash) 2 serverError).
  - reflexivity.
  - unfold maxCreateRetries. lia.
  - intros i Hi. exists conflict.
    destruct i as [ | [ | i]]; [ split; reflexivity | split; reflexivity | lia ].
  - reflexivity.
  - reflexivity.
Defined.

Lemma poll_timeout_witness :
  fst (run neverFinishes sha1Hash)
  = Returns (textResult
               "Query still running after 30s. Use s1_dv_get_events with queryId: q1")
  /\ count isStatus (snd (run neverFinishes sha1Hash)) = 30
  /\ count isEvents (snd (run neverFinishes sha1Hash)) = 0.
Proof.
  assert (Hcreated : created neverFinishes 0 q1)
    by (repeat split; [ unfold maxCreateRetries; lia | intros i Hi; lia ]).
  assert (Hrunning : forall i, i < maxAttempts -> running (statusAnswer neverFinishes i))
    by (intros i _; exists runningStatus; split; reflexivity).
  destruct (poll_budget_exhausted_times_out neverFinishes sampleTimeAgo sampleTruncate
              (mkParams sha1Hash) 0 q1 eq_refl Hcreated Hrunning) as [Hout [Hst Hev]].
  split; [ | split; [ exact Hst | exact Hev ] ].
  unfold run. rewrite Hout. reflexivity.
Defined.

Lemma malformed_hash_witness :
  exists r,
    handleHashLookup happyPath sampleTimeAgo sampleTruncate (mkParams "abc123") []
    = (Returns r, [])
    /\ isError r = true.
Proof.
  apply (proj2 (proj2 (proj2 (handler_never_throws happyPath sampleTimeAgo
                                sampleTruncate (mkParams "abc123") [])))).
  left. split; discriminate.
Defined.

End HashProofs.

(** * More of the hash hunt: every run, its bounds and its order *)

Module HashCoverage.

Import Hash HashProofs.

Section Runs.

Variable R : Remote.
Variable formatTimeAgo : string -> string.
Variable truncatePath : string -> nat -> string.

(** The definitions of [Hash] at this remote and these helpers. *)
Local Abbreviation createLoop := (Hash.createLoop R).
Local Abbreviation pollLoop := (Hash.pollLoop R).
Local Abbreviation fetchLoop := (Hash.fetchLoop R).
Local Abbreviation present := (Hash.present formatTimeAgo truncatePath).
Local Abbreviation fetchPhase := (Hash.fetchPhase R formatTimeAgo truncatePath).
Local Abbreviation pollPhase := (Hash.pollPhase R formatTimeAgo truncatePath).
Local Abbreviation lookup := (Hash.lookup R formatTimeAgo truncatePath).
Local Abbreviation handleHashLookup := (Hash.handleHashLookup R formatTimeAgo truncatePath).
Local Abbreviation createRetries := (Hash.createRetries R).
Local Abbreviation createCall := (Hash.createCall R).
Local Abbreviation createEnds := (Hash.createEnds R).
Local Abbreviation pollEnds := (Hash.pollEnds R).
Local Abbreviation fetchEnds := (Hash.fetchEnds R).
Local Abbreviation createTrace := (Hash.createTrace R).
Local Abbreviation pollTrace := (Hash.pollTrace R).
Local Abbreviation fetchTrace := (Hash.fetchTrace R).
Local Abbreviation Run := (Hash.Run R formatTimeAgo truncatePath).
Local Abbreviation carries := (Hash.carries R).
Local Abbreviation created := (Hash.created R).
Local Abbreviation settled := (Hash.settled R).
Local Abbreviation fetched := (Hash.fetched R).

#[local] Arguments Nat.sub : simpl never.

(** *** Where each loop ends, for every remote *)

Lemma createRetries_front (dvQuery : string) (k : nat) :
  ([createCall dvQuery; Wait 3000] ++ createRetries dvQuery k)%list
  = createRetries dvQuery (S k).
Proof.
  induction k as [ | k IH]; [ reflexivity | ].
  transitivity (([createCall dvQuery; Wait 3000] ++ createRetries dvQuery k) ++ [createCall dvQuery; Wait 3000])%list.
  - rewrite <- app_assoc. reflexivity.
  - rewrite IH. reflexivity.
Qed.

Lemma polls_front (queryId : string) (j : nat) :
  ([Wait 1000; GetDVQueryStatus queryId] ++ polls queryId j)%list
  = polls queryId (S j).
Proof.
  induction j as [ | j IH]; [ reflexivity | ].
  transitivity (([Wait 1000; GetDVQueryStatus queryId] ++ polls queryId j) ++ [Wait 1000; GetDVQueryStatus queryId])%list.
  - rewrite <- app_assoc. reflexivity.
  - rewrite IH. reflexivity.
Qed.

Lemma fetchRetries_front (queryId : string) (f : nat) :
  ([GetDVEvents queryId 50; Wait 2000] ++ fetchRetries queryId f)%list
  = fetchRetries queryId (S f).
Proof.
  induction f as [ | f IH]; [ reflexivity | ].
  transitivity (([GetDVEvents queryId 50; Wait 2000] ++ fetchRetries queryId f) ++ [GetDVEvents queryId 50; Wait 2000])%list.
  - rewrite <- app_assoc. reflexivity.
  - rewrite IH. reflexivity.
Qed.

Lemma createLoop_ends (dvQuery : string) :
  forall n createAttempts tr,
    maxCreateRetries - createAttempts = n ->
    createAttempts < maxCreateRetries ->
    exists k,
      createAttempts + k < maxCreateRetries
      /\ (forall i, i < k -> busy (createAnswer R (count isCreate tr + i)))
      /\ createLoop dvQuery createAttempts tr
         = (createAnswer R (count isCreate tr + k),
            (tr ++ createRetries dvQuery k ++ [createCall dvQuery])%list)
      /\ (busy (createAnswer R (count isCreate tr + k)) ->
          createAttempts + k = maxCreateRetries - 1).
Proof.
  induction n as [ | n IH]; intros a tr Hn Ha; [ lia | ].
  rewrite createLoop_step by assumption.
  destruct (createAnswer R (count isCreate tr)) as [v | e] eqn:Hans.
  - exists 0. rewrite !Nat.add_0_r, Hans. repeat split; try lia.
    intros [e [He _]]. discriminate He.
  - destruct (includes "409" (errorText e)) eqn:H409; simpl.
    + destruct (a <? maxCreateRetries - 1)%nat eqn:Hlt.
      * apply Nat.ltb_lt in Hlt.
        destruct (IH (a + 1) (tr ++ [CreateDVQuery dvQuery (fromDate R) (toDate R);
                                     Wait 3000])%list)
          as (k & Hk & Hbusy & Hrun & Hlast); try lia.
        rewrite count_app in Hbusy, Hrun, Hlast.
        change (count isCreate [CreateDVQuery dvQuery (fromDate R) (toDate R); Wait 3000])
          with 1 in *.
        exists (S k).
        replace (count isCreate tr + S k) with (count isCreate tr + 1 + k) by lia.
        repeat split; try lia.
        -- intros i Hi. destruct i as [ | i].
           ++ rewrite !Nat.add_0_r, Hans. exists e. auto.
           ++ replace (count isCreate tr + S i) with (count isCreate tr + 1 + i) by lia.
              apply Hbusy. lia.
        -- rewrite Hrun. f_equal. rewrite <- createRetries_front.
           rewrite <- !app_assoc. reflexivity.
        -- intros Hb. specialize (Hlast Hb). lia.
      * apply Nat.ltb_ge in Hlt.
        exists 0. rewrite !Nat.add_0_r, Hans. repeat split; try lia.
    + exists 0. rewrite !Nat.add_0_r, Hans. repeat split; try lia.
      intros [e' [He' H409']]. injection He' as <-. congruence.
Qed.

Lemma fetchLoop_ends (queryId : string) :
  forall n fetchAttempts tr,
    maxFetchRetries - fetchAttempts = n ->
    fetchAttempts < maxFetchRetries ->
    exists f,
      fetchAttempts + f < maxFetchRetries
      /\ (forall i, i < f -> busy (eventsAnswer R (count isEvents tr + i)))
      /\ fetchLoop queryId fetchAttempts tr
         = (eventsAnswer R (count isEvents tr + f),
            (tr ++ fetchRetries queryId f ++ [GetDVEvents queryId 50])%list)
      /\ (busy (eventsAnswer R (count isEvents tr + f)) ->
          fetchAttempts + f = maxFetchRetries - 1).
Proof.
  induction n as [ | n IH]; intros a tr Hn Ha; [ lia | ].
  rewrite fetchLoop_step by assumption.
  destruct (eventsAnswer R (count isEvents tr)) as [v | e] eqn:Hans.
  - exists 0. rewrite !Nat.add_0_r, Hans. repeat split; try lia.
    intros [e [He _]]. discriminate He.
  - destruct (includes "409" (errorText e)) eqn:H409; simpl.
    + destruct (a <? maxFetchRetries - 1)%nat eqn:Hlt.
      * apply Nat.ltb_lt in Hlt.
        destruct (IH (a + 1) (tr ++ [GetDVEvents queryId 50; Wait 2000])%list)
          as (f & Hf & Hbusy & Hrun & Hlast); try lia.
        rewrite count_app in Hbusy, Hrun, Hlast.
        change (count isEvents [GetDVEvents queryId 50; Wait 2000]) with 1 in *.
        exists (S f).
        replace (count isEvents tr + S f) with (count isEvents tr + 1 + f) by lia.
        repeat split; try lia.
        -- intros i Hi. destruct i as [ | i].
           ++ rewrite !Nat.add_0_r, Hans. exists e. auto.
           ++ replace (count isEvents tr + S i) with (count isEvents tr + 1 + i) by lia.
              apply Hbusy. lia.
        -- rewrite Hrun. f_equal. rewrite <- fetchRetries_front.
           rewrite <- !app_assoc. reflexivity.
        -- intros Hb. specialize (Hlast Hb). lia.
      * apply Nat.ltb_ge in Hlt.
        exists 0. rewrite !Nat.add_0_r, Hans. repeat split; try lia.
    + exists 0. rewrite !Nat.add_0_r, Hans. repeat split; try lia.
      intros [e' [He' H409']]. injection He' as <-. congruence.
Qed.

Lemma pollLoop_ends (queryId : string) :
  forall n attempts last tr,
    maxAttempts - attempts = n ->
    attempts < maxAttempts ->
    exists j,
      attempts + j < maxAttempts
      /\ (forall i, i < j -> running (statusAnswer R (count isStatus tr + i)))
      /\ pollLoop queryId attempts last tr
         = (statusAnswer R (count isStatus tr + j),
            (tr ++ polls queryId (S j))%list)
      /\ (running (statusAnswer R (count isStatus tr + j)) ->
          attempts + j = maxAttempts - 1).
Proof.
  induction n as [ | n IH]; intros a last tr Hn Ha; [ lia | ].
  rewrite pollLoop_step by assumption.
  destruct (statusAnswer R (count isStatus tr)) as [s | e] eqn:Hans.
  - destruct (String.eqb (status s) "RUNNING") eqn:Hs; simpl.
    + apply String.eqb_eq in Hs.
      destruct (Nat.eq_dec (a + 1) maxAttempts) as [Hend | Hmore].
      * rewrite pollLoop_done by lia.
        exists 0. rewrite !Nat.add_0_r, Hans. repeat split; try lia.
      * destruct (IH (a + 1) s (tr ++ [Wait 1000; GetDVQueryStatus queryId])%list)
          as (j & Hj & Hrun & Hloop & Hlast); try lia.
        rewrite count_app in Hrun, Hloop, Hlast.
        change (count isStatus [Wait 1000; GetDVQueryStatus queryId]) with 1 in *.
        exists (S j).
        replace (count isStatus tr + S j) with (count isStatus tr + 1 + j) by lia.
        repeat split; try lia.
        -- intros i Hi. destruct i as [ | i].
           ++ rewrite !Nat.add_0_r, Hans. exists s. auto.
           ++ replace (count isStatus tr + S i) with (count isStatus tr + 1 + i) by lia.
              apply Hrun. lia.
        -- rewrite Hloop. apply f_equal. rewrite <- app_assoc.
           apply (f_equal (app tr)). exact (polls_front queryId (S j)).
        -- intros Hb. specialize (Hlast Hb). lia.
    + apply String.eqb_neq in Hs.
      exists 0. rewrite !Nat.add_0_r, Hans. repeat split; try lia.
      intros [s' [Hs' Hrun']]. injection Hs' as <-. contradiction.
  - exists 0. rewrite !Nat.add_0_r, Hans. repeat split; try lia.
    intros [s [Hs _]]. discriminate Hs.
Qed.

(** *** Every run of the handler *)

Lemma count_createTrace (h : string) (k : nat) :
  count isCreate (createTrace h k) = S k
  /\ count isStatus (createTrace h k) = 0
  /\ count isEvents (createTrace h k) = 0.
Proof.
  unfold Hash.createTrace. rewrite !count_app.
  destruct (count_createRetries R (dvQueryOf h) k) as [-> [-> ->]].
  unfold count. simpl. repeat split; lia.
Qed.

Lemma count_pollTrace (h : string) (k : nat) (result : DVQueryResponse) (j : nat) :
  count isCreate (pollTrace h k result j) = S k
  /\ count isStatus (pollTrace h k result j) = S j
  /\ count isEvents (pollTrace h k result j) = 0.
Proof.
  unfold Hash.pollTrace. rewrite !count_app.
  destruct (count_createTrace h k) as [-> [-> ->]].
  destruct (count_polls (queryId result) (S j)) as [-> [-> ->]].
  repeat split; lia.
Qed.

Lemma count_fetchTrace (h : string) (k : nat) (result : DVQueryResponse) (j f : nat) :
  count isCreate (fetchTrace h k result j f) = S k
  /\ count isStatus (fetchTrace h k result j f) = S j
  /\ count isEvents (fetchTrace h k result j f) = S f.
Proof.
  unfold Hash.fetchTrace. rewrite !count_app.
  destruct (count_pollTrace h k result j) as [-> [-> ->]].
  destruct (count_fetchRetries (queryId result) f) as [-> [-> ->]].
  unfold count. simpl. repeat split; lia.
Qed.

(** The fetch phase, for every remote. *)
Lemma fetchPhase_runs (h : string) (k : nat) (result : DVQueryResponse) (j : nat) :
  exists f o,
    fetchEnds f o
    /\ fetchPhase (hashFieldOf h) h result (pollTrace h k result j)
       = (match o with
          | Returns events => Returns (present (hashFieldOf h) h result events)
          | Throws e => Throws e
          end,
          fetchTrace h k result j f).
Proof.
  destruct (fetchLoop_ends (queryId result) maxFetchRetries 0 (pollTrace h k result j))
    as (f & Hf & Hbusy & Hrun & Hlast);
    [ reflexivity | unfold maxFetchRetries; lia | ].
  destruct (count_pollTrace h k result j) as [_ [_ Hev]].
  rewrite Hev in Hbusy, Hrun, Hlast. cbn [Nat.add] in Hf, Hbusy, Hrun, Hlast.
  exists f, (eventsAnswer R f). split.
  - repeat split; try assumption; lia.
  - unfold Hash.fetchPhase, bind, ret. rewrite Hrun.
    destruct (eventsAnswer R f); reflexivity.
Qed.

(** Every invocation on a well-formed hash is one of the runs of [Run]: whatever the remote answers, the result and the effects
    are those of the answers that end the three loops. *)
Lemma every_run (h : string) :
  wellFormed h = true ->
  exists r tr,
    handleHashLookup (mkParams h) [] = (Returns r, tr) /\ Run h r tr.
Proof.
  intros Hwf.
  unfold Hash.handleHashLookup, tryCatch, rescue, ret.
  rewrite lookup_wellFormed by assumption. unfold bind, ret. cbn [hash].
  destruct (createLoop_ends (dvQueryOf h) maxCreateRetries 0 [])
    as (k & Hk & Hbusy & Hrun & Hlast);
    [ reflexivity | unfold maxCreateRetries; lia | ].
  change (count isCreate []) with 0 in Hbusy, Hrun, Hlast.
  cbn [Nat.add app] in Hk, Hbusy, Hrun, Hlast. rewrite Hrun.
  assert (Hcreate : createEnds k (createAnswer R k))
    by (repeat split; assumption).
  fold (createTrace h k).
  destruct (createAnswer R k) as [[result | ] | e] eqn:Hans.
  - unfold Hash.pollPhase, bind, ret.
    destruct (pollLoop_ends (queryId result) maxAttempts 0
                (mkDVQueryStatus "RUNNING" None) (createTrace h k))
      as (j & Hj & Hrunning & Hpoll & Hend);
      [ reflexivity | unfold maxAttempts; lia | ].
    destruct (count_createTrace h k) as [_ [Hst _]].
    rewrite Hst in Hrunning, Hpoll, Hend.
    cbn [Nat.add] in Hj, Hrunning, Hpoll, Hend.
    rewrite Hpoll. fold (pollTrace h k result j).
    assert (Hpolled : pollEnds j (statusAnswer R j))
      by (repeat split; assumption).
    destruct (statusAnswer R j) as [s | e] eqn:Hstatus.
    + destruct (String.eqb (status s) "FAILED") eqn:Hfailed.
      * apply String.eqb_eq in Hfailed.
        eexists. eexists. split; [ reflexivity | ].
        eapply JobFailed; eassumption.
      * destruct (String.eqb (status s) "RUNNING") eqn:Hstill.
        -- apply String.eqb_eq in Hstill.
           eexists. eexists. split; [ reflexivity | ].
           eapply JobStillRunning; eassumption.
        -- apply String.eqb_neq in Hfailed. apply String.eqb_neq in Hstill.
           destruct (fetchPhase_runs h k result j) as (f & o & Hfetch & ->).
           destruct o as [events | e].
           ++ eexists. eexists. split; [ reflexivity | ].
              eapply Presented; eassumption.
           ++ eexists. eexists. split; [ reflexivity | ].
              eapply FetchThrows; eassumption.
    + eexists. eexists. split; [ reflexivity | ].
      eapply PollThrows; eassumption.
  - eexists. eexists. split; [ reflexivity | ].
    apply CreationEmpty. assumption.
  - eexists. eexists. split; [ reflexivity | ].
    apply CreationThrows. assumption.
Qed.

(** The answer that ends a loop is determined by the remote. *)
Lemma ends_unique {A} (limit : nat) (answer : nat -> Outcome A)
    (retried : Outcome A -> Prop) (k k' : nat) :
  (forall i, i < k -> retried (answer i)) ->
  (retried (answer k) -> k = limit - 1) ->
  (forall i, i < k' -> retried (answer i)) ->
  (retried (answer k') -> k' = limit - 1) ->
  k < limit -> k' < limit ->
  k = k'.
Proof.
  intros Hpre Hlast Hpre' Hlast' Hk Hk'.
  destruct (Nat.lt_trichotomy k k') as [Hlt | [Heq | Hgt]]; [ | assumption | ].
  - specialize (Hlast (Hpre' k Hlt)). lia.
  - specialize (Hlast' (Hpre k' Hgt)). lia.
Qed.

Lemma createEnds_unique k o k' o' :
  createEnds k o -> createEnds k' o' -> k = k' /\ o = o'.
Proof.
  intros (Hk & Hpre & <- & Hlast) (Hk' & Hpre' & <- & Hlast').
  assert (k = k') by (eapply (ends_unique maxCreateRetries (createAnswer R)); eassumption).
  subst. auto.
Qed.

Lemma pollEnds_unique j o j' o' :
  pollEnds j o -> pollEnds j' o' -> j = j' /\ o = o'.
Proof.
  intros (Hj & Hpre & <- & Hlast) (Hj' & Hpre' & <- & Hlast').
  assert (j = j') by (eapply (ends_unique maxAttempts (statusAnswer R)); eassumption).
  subst. auto.
Qed.

Lemma fetchEnds_unique f o f' o' :
  fetchEnds f o -> fetchEnds f' o' -> f = f' /\ o = o'.
Proof.
  intros (Hf & Hpre & <- & Hlast) (Hf' & Hpre' & <- & Hlast').
  assert (f = f') by (eapply (ends_unique maxFetchRetries (eventsAnswer R)); eassumption).
  subst. auto.
Qed.

Ltac same_ends :=
  repeat match goal with
  | A : Hash.createEnds _ ?k ?o, B : Hash.createEnds _ ?k' ?o' |- _ =>
      let E := fresh "E" in
      destruct (createEnds_unique _ _ _ _ A B) as [? E]; clear B;
      try discriminate E; try (injection E as ?); subst
  | A : Hash.pollEnds _ ?k ?o, B : Hash.pollEnds _ ?k' ?o' |- _ =>
      let E := fresh "E" in
      destruct (pollEnds_unique _ _ _ _ A B) as [? E]; clear B;
      try discriminate E; try (injection E as ?); subst
  | A : Hash.fetchEnds _ ?k ?o, B : Hash.fetchEnds _ ?k' ?o' |- _ =>
      let E := fresh "E" in
      destruct (fetchEnds_unique _ _ _ _ A B) as [? E]; clear B;
      try discriminate E; try (injection E as ?); subst
  end.

Lemma Run_deterministic (h : string) (r r' : ToolResult) (tr tr' : Trace) :
  Run h r tr -> Run h r' tr' -> r = r' /\ tr = tr'.
Proof.
  intros H1 H2. destruct H1; destruct H2; same_ends;
    try (split; reflexivity); congruence.
Qed.

Lemma Run_is_run (h : string) (r : ToolResult) (tr : Trace) :
  wellFormed h = true ->
  Run h r tr ->
  handleHashLookup (mkParams h) [] = (Returns r, tr).
Proof.
  intros Hwf HRun'. destruct (every_run h Hwf) as (r0 & tr0 & Hrun & HRun).
  destruct (Run_deterministic h r r0 tr tr0 HRun' HRun) as [-> ->].
  assumption.
Qed.

(** X1.  On a well-formed hash the handler returns [r] after the effects
    [tr] exactly when [Run] relates them: the seven kinds of run, decided by
    the answers that end the creation, polling and fetch loops, are all the
    handler does and are told apart by those answers. *)
Theorem runs_are_exactly_Run (h : string) (r : ToolResult) (tr : Trace) :
  wellFormed h = true ->
  (handleHashLookup (mkParams h) [] = (Returns r, tr) <-> Run h r tr).
Proof.
  intros Hwf. split.
  - destruct (every_run h Hwf) as (r0 & tr0 & Hrun & HRun).
    intros Heq. rewrite Hrun in Heq. injection Heq as <- <-. assumption.
  - apply Run_is_run. assumption.
Qed.

(** *** Bounds on calls and waiting *)

Lemma waited_app (tr1 tr2 : Trace) :
  waited (tr1 ++ tr2)%list = (waited tr1 + waited tr2)%N.
Proof.
  induction tr1 as [ | e tr1 IH]; [ reflexivity | ].
  destruct e; simpl; rewrite IH; lia.
Qed.

Lemma waited_createTrace (h : string) (k : nat) :
  waited (createTrace h k) = (3000 * N.of_nat k)%N.
Proof.
  unfold Hash.createTrace. rewrite waited_app.
  assert (Hretries : waited (createRetries (dvQueryOf h) k) = (3000 * N.of_nat k)%N).
  { induction k as [ | k IH]; [ reflexivity | ].
    simpl Hash.createRetries. rewrite waited_app, IH. simpl waited. lia. }
  rewrite Hretries. simpl waited. lia.
Qed.

Lemma waited_polls (queryId : string) (j : nat) :
  waited (polls queryId j) = (1000 * N.of_nat j)%N.
Proof.
  induction j as [ | j IH]; [ reflexivity | ].
  simpl polls. rewrite waited_app, IH. simpl waited. lia.
Qed.

Lemma waited_fetchRetries (queryId : string) (f : nat) :
  waited (fetchRetries queryId f) = (2000 * N.of_nat f)%N.
Proof.
  induction f as [ | f IH]; [ reflexivity | ].
  simpl fetchRetries. rewrite waited_app, IH. simpl waited. lia.
Qed.

Lemma waited_pollTrace (h : string) (k : nat) (result : DVQueryResponse) (j : nat) :
  waited (pollTrace h k result j)
  = (3000 * N.of_nat k + 1000 * N.of_nat (S j))%N.
Proof.
  unfold Hash.pollTrace. rewrite waited_app, waited_createTrace, waited_polls.
  reflexivity.
Qed.

Lemma waited_fetchTrace (h : string) (k : nat) (result : DVQueryResponse) (j f : nat) :
  waited (fetchTrace h k result j f)
  = (3000 * N.of_nat k + 1000 * N.of_nat (S j) + 2000 * N.of_nat f)%N.
Proof.
  unfold Hash.fetchTrace. rewrite !waited_app, waited_pollTrace, waited_fetchRetries.
  simpl waited. lia.
Qed.

(** A malformed hash is answered without any effect. *)
Lemma malformed_trace (params : Params) :
  wellFormed (hash params) = false ->
  snd (handleHashLookup params []) = [].
Proof.
  intros Hwf. unfold Hash.handleHashLookup, tryCatch.
  destruct (lookup_malformed R formatTimeAgo truncatePath params [] Hwf)
    as [detail ->].
  reflexivity.
Qed.

(** The measures of a run. *)
Lemma Run_measures (h : string) (r : ToolResult) (tr : Trace) :
  Run h r tr ->
  exists k j f,
    k < maxCreateRetries /\ j <= maxAttempts /\ f <= maxFetchRetries
    /\ count isCreate tr = S k
    /\ count isStatus tr = j
    /\ count isEvents tr = f
    /\ waited tr
       = (3000 * N.of_nat k + 1000 * N.of_nat j + 2000 * N.of_nat (f - 1))%N.
Proof.
  unfold maxCreateRetries, maxAttempts, maxFetchRetries.
  intros [k e Hc | k Hc | k result j e Hc Hp | k result j s Hc Hp Hs
         | k result j s Hc Hp Hs | k result j s f e Hc Hp Hs Hs' Hf
         | k result j s f events Hc Hp Hs Hs' Hf];
    pose proof (proj1 Hc) as Hk; unfold maxCreateRetries in Hk.
  1, 2: exists k, 0, 0; destruct (count_createTrace h k) as [-> [-> ->]];
        rewrite waited_createTrace; repeat split; lia.
  1, 2, 3: pose proof (proj1 Hp) as Hj; unfold maxAttempts in Hj;
           exists k, (S j), 0;
           destruct (count_pollTrace h k result j) as [-> [-> ->]];
           rewrite waited_pollTrace; repeat split; lia.
  all: pose proof (proj1 Hp) as Hj; unfold maxAttempts in Hj;
       pose proof (proj1 Hf) as Hf'; unfold maxFetchRetries in Hf';
       exists k, (S j), (S f);
       destruct (count_fetchTrace h k result j f) as [-> [-> ->]];
       rewrite waited_fetchTrace; repeat split; try lia.
  all: replace (S f - 1) with f by lia; lia.
Qed.

(** X2.  Whatever the hash and whatever the remote answers, one invocation
    makes at most 6 creation calls, 30 status calls and 5 event fetches, and
    spends at most 53 seconds waiting between them. *)
Theorem effort_is_bounded (params : Params) :
  count isCreate (snd (handleHashLookup params [])) <= 6
  /\ count isStatus (snd (handleHashLookup params [])) <= 30
  /\ count isEvents (snd (handleHashLookup params [])) <= 5
  /\ (waited (snd (handleHashLookup params [])) <= 53000)%N.
Proof.
  destruct params as [h].
  destruct (wellFormed h) eqn:Hwf.
  - destruct (every_run h Hwf) as (r & tr & -> & HRun). cbn [snd].
    destruct (Run_measures h r tr HRun)
      as (k & j & f & Hk & Hj & Hf & -> & -> & -> & ->).
    unfold maxCreateRetries, maxAttempts, maxFetchRetries in *.
    repeat split; lia.
  - rewrite (malformed_trace (mkParams h) Hwf).
    repeat split; try (unfold count; simpl; lia).
Qed.

(** *** What each phase waits for, and what each call carries *)

(** X3.  Status is polled only for a query whose creation returned a
    result, and events are fetched only after a poll returned a status that
    is neither [RUNNING] nor [FAILED]. *)
Theorem phases_are_gated (params : Params) :
  (0 < count isStatus (snd (handleHashLookup params [])) ->
   exists k result, createEnds k (Returns (Some result)))
  /\ (0 < count isEvents (snd (handleHashLookup params [])) ->
      exists k result j s,
        createEnds k (Returns (Some result))
        /\ pollEnds j (Returns s)
        /\ status s <> "FAILED" /\ status s <> "RUNNING").
Proof.
  destruct params as [h].
  destruct (wellFormed h) eqn:Hwf.
  - destruct (every_run h Hwf) as (r & tr & -> & HRun). cbn [snd].
    destruct HRun as [k e Hc | k Hc | k result j e Hc Hp | k result j s Hc Hp Hs
                     | k result j s Hc Hp Hs | k result j s f e Hc Hp Hs Hs' Hf
                     | k result j s f events Hc Hp Hs Hs' Hf].
    1, 2: destruct (count_createTrace h k) as [_ [-> ->]]; split; intros; lia.
    1, 2, 3: destruct (count_pollTrace h k result j) as [_ [_ ->]];
             split; [ eauto | intros; lia ].
    all: split; intros _; eauto 10.
  - rewrite (malformed_trace (mkParams h) Hwf).
    split; intros Hpos; unfold count in Hpos; simpl in Hpos; lia.
Qed.

Lemma In_createTrace (h : string) (k : nat) (e : Effect) :
  In e (createTrace h k) -> e = createCall (dvQueryOf h) \/ e = Wait 3000.
Proof.
  unfold Hash.createTrace. intros Hin. apply in_app_or in Hin.
  destruct Hin as [Hin | [<- | []]]; [ | auto ].
  induction k as [ | k IH]; [ contradiction | ].
  simpl in Hin. apply in_app_or in Hin.
  destruct Hin as [Hin | [<- | [<- | []]]]; auto.
Qed.

Lemma In_polls (queryId : string) (j : nat) (e : Effect) :
  In e (polls queryId j) -> e = Wait 1000 \/ e = GetDVQueryStatus queryId.
Proof.
  induction j as [ | j IH]; [ contradiction | ].
  simpl. intros Hin. apply in_app_or in Hin.
  destruct Hin as [Hin | [<- | [<- | []]]]; auto.
Qed.

Lemma In_fetchRetries (queryId : string) (f : nat) (e : Effect) :
  In e (fetchRetries queryId f) -> e = GetDVEvents queryId 50 \/ e = Wait 2000.
Proof.
  induction f as [ | f IH]; [ contradiction | ].
  simpl. intros Hin. apply in_app_or in Hin.
  destruct Hin as [Hin | [<- | [<- | []]]]; auto.
Qed.

(** X4.  Every creation call of an invocation carries the query built
    from the hash ([SHA1 = "<hash>"] or [SHA256 = "<hash>"]) and the time
    range of the invocation; every status call and every event fetch is for
    the queryId that the creation returned, fetches ask for at most 50
    events, and the only waits are of 3, 1 and 2 seconds. *)
Theorem calls_carry_hash_and_created_id (params : Params) (e : Effect) :
  In e (snd (handleHashLookup params [])) -> carries (hash params) e.
Proof.
  destruct params as [h]. cbn [hash].
  destruct (wellFormed h) eqn:Hwf;
    [ | rewrite (malformed_trace (mkParams h) Hwf); contradiction ].
  destruct (every_run h Hwf) as (r & tr & -> & HRun). cbn [snd].
  assert (Hcreate : forall k, In e (createTrace h k) -> carries h e).
  { intros k Hin. destruct (In_createTrace h k e Hin) as [-> | ->]; simpl; auto. }
  assert (Hpoll : forall k result j,
             createEnds k (Returns (Some result)) ->
             In e (pollTrace h k result j) -> carries h e).
  { intros k result j Hc Hin. unfold Hash.pollTrace in Hin.
    apply in_app_or in Hin. destruct Hin as [Hin | Hin]; [ eauto | ].
    destruct (In_polls _ _ _ Hin) as [-> | ->]; simpl; eauto. }
  assert (Hfetch : forall k result j f,
             createEnds k (Returns (Some result)) ->
             In e (fetchTrace h k result j f) -> carries h e).
  { intros k result j f Hc Hin. unfold Hash.fetchTrace in Hin.
    apply in_app_or in Hin. destruct Hin as [Hin | Hin]; [ eauto | ].
    apply in_app_or in Hin. destruct Hin as [Hin | [<- | []]].
    - destruct (In_fetchRetries _ _ _ Hin) as [-> | ->]; simpl; eauto.
    - simpl. eauto. }
  destruct HRun; eauto.
Qed.

(** *** Particular runs *)

Lemma created_ends (k : nat) (result : DVQueryResponse) :
  created k result -> createEnds k (Returns (Some result)).
Proof.
  intros (Hk & Hbusy & Hans). repeat split; try assumption.
  intros [e [He _]]. discriminate He.
Qed.

Lemma settled_ends (j : nat) (s : DVQueryStatus) :
  settled j s -> pollEnds j (Returns s).
Proof.
  intros (Hj & Hrun & Hans & Hs). repeat split; try assumption.
  intros [s' [Hs' Hrun']]. injection Hs' as <-. contradiction.
Qed.

Lemma fetched_ends (f : nat) (page : PaginatedResponse) :
  fetched f page -> fetchEnds f (Returns (Some page)).
Proof.
  intros (Hf & Hbusy & Hans). repeat split; try assumption.
  intros [e [He _]]. discriminate He.
Qed.

(** C8. When the fetch phase is entered and its loop ends with the answer
    [o], the invocation returns a result [r] such that: for a page of zero
    event records, [r] is the no-activity text without the error flag; for
    a fetch that throws, [r] is the hunting error with the error flag; for
    a fetch that returns nothing, [r] is the events-not-available text with
    the created queryId; and [r] is the no-activity result only when the
    fetch returned a page, and that page has no event. *)
Theorem empty_page_is_a_plain_result (params : Params) (k : nat)
    (result : DVQueryResponse) (j : nat) (s : DVQueryStatus) (f : nat)
    (o : Outcome (option PaginatedResponse)) :
  wellFormed (hash params) = true ->
  created k result ->
  settled j s ->
  status s <> "FAILED" ->
  fetchEnds f o ->
  exists r,
    fst (handleHashLookup params []) = Returns r
    /\ (forall page,
          o = Returns (Some page) -> data page = Some [] ->
          r = textResult ("No activity found for " ++ hashFieldOf (hash params) ++ " "
                          ++ hash params ++ " in the last 14 days.")
          /\ isError r = false)
    /\ (forall e,
          o = Throws e ->
          r = errorResult ("Error hunting hash: " ++ errorText e)
          /\ isError r = true)
    /\ (o = Returns None ->
        r = textResult
              ("Query completed but events not available after retries. Use s1_dv_get_events with queryId: "
               ++ queryId result))
    /\ (r = textResult ("No activity found for " ++ hashFieldOf (hash params) ++ " "
                        ++ hash params ++ " in the last 14 days.")
        <-> exists page,
              o = Returns (Some page) /\ (data page = Some [] \/ data page = None)).
Proof.
  intros Hwf Hc Hp Hs Hf. destruct params as [h]. cbn [hash] in *.
  pose proof (created_ends k result Hc) as Hc'.
  pose proof (settled_ends j s Hp) as Hp'.
  assert (Hs' : status s <> "RUNNING") by (destruct Hp as (_ & _ & _ & Hs'); exact Hs').
  destruct o as [events | e].
  - rewrite (Run_is_run h _ _ Hwf
               (Presented R formatTimeAgo truncatePath h k result j s f events
                  Hc' Hp' Hs Hs' Hf)).
    eexists. split; [ reflexivity | ].
    split; [ | split; [ | split; [ | split ] ] ].
    + intros page Ho Hdata. injection Ho as ->.
      unfold Hash.present. rewrite Hdata. split; reflexivity.
    + intros e He. discriminate He.
    + intros Ho. injection Ho as ->. reflexivity.
    + intros Heq. destruct events as [page | ].
      * exists page. split; [ reflexivity | ].
        unfold Hash.present in Heq.
        destruct (data page) as [[ | ev rest] | ]; auto.
        exfalso. injection Heq as Heq. unfold report in Heq. cbv zeta in Heq.
        cbn [append] in Heq. discriminate Heq.
      * exfalso. injection Heq as Heq. discriminate Heq.
    + intros (page & Ho & Hdata). injection Ho as ->.
      unfold Hash.present. destruct Hdata as [-> | ->]; reflexivity.
  - rewrite (Run_is_run h _ _ Hwf
               (FetchThrows R formatTimeAgo truncatePath h k result j s f e
                  Hc' Hp' Hs Hs' Hf)).
    eexists. split; [ reflexivity | ].
    split; [ | split; [ | split; [ | split ] ] ].
    + intros page Ho. discriminate Ho.
    + intros e' He. injection He as <-. split; reflexivity.
    + intros Ho. discriminate Ho.
    + intros Heq. discriminate Heq.
    + intros (page & Ho & _). discriminate Ho.
Qed.

(** X5.  A job that settles as [FAILED] ends the invocation at that poll
    with an error result and without any event fetch; the text carries the
    platform's [responseError], or [Unknown error] when it is missing or
    empty. *)
Theorem failed_job_is_reported (h : string) (k : nat) (result : DVQueryResponse)
    (j : nat) (s : DVQueryStatus) :
  wellFormed h = true ->
  created k result ->
  settled j s ->
  status s = "FAILED" ->
  handleHashLookup (mkParams h) []
  = (Returns (errorResult
                ("DV hash query failed: "
                 ++ match responseError s with
                    | Some (String c detail) => String c detail
                    | _ => "Unknown error"
                    end)),
     pollTrace h k result j)
  /\ count isEvents (pollTrace h k result j) = 0.
Proof.
  intros Hwf Hc Hp Hs. split.
  - apply Run_is_run; [ assumption | ].
    apply (JobFailed R formatTimeAgo truncatePath h k result j s);
      auto using created_ends, settled_ends.
  - apply count_pollTrace.
Qed.

(** X6.  A status call that throws ends the invocation at once: polling has
    no retry, not even for an error that carries [409]. *)
Theorem poll_error_is_not_retried (h : string) (k : nat) (result : DVQueryResponse)
    (j : nat) (e : Thrown) :
  wellFormed h = true ->
  created k result ->
  j < maxAttempts ->
  (forall i, i < j -> running (statusAnswer R i)) ->
  statusAnswer R j = Throws e ->
  handleHashLookup (mkParams h) []
  = (Returns (errorResult ("Error hunting hash: " ++ errorText e)),
     pollTrace h k result j)
  /\ count isStatus (pollTrace h k result j) = S j
  /\ count isEvents (pollTrace h k result j) = 0.
Proof.
  intros Hwf Hc Hj Hrun Hans. split; [ | split; apply count_pollTrace ].
  apply Run_is_run; [ assumption | ].
  apply (PollThrows R formatTimeAgo truncatePath h k result j e);
    [ auto using created_ends | ].
  repeat split; try assumption.
  intros [s [Hs _]]. discriminate Hs.
Qed.

(** X7.  A fetch that fails with an error whose message does not carry
    [409] ends the invocation at once with that error, whatever is left of
    the fetch budget. *)
Theorem fatal_fetch_error_is_not_retried (h : string) (k : nat)
    (result : DVQueryResponse) (j : nat) (s : DVQueryStatus) (f : nat) (e : Thrown) :
  wellFormed h = true ->
  created k result ->
  settled j s ->
  status s <> "FAILED" ->
  f < maxFetchRetries ->
  (forall i, i < f -> busy (eventsAnswer R i)) ->
  eventsAnswer R f = Throws e ->
  includes "409" (errorText e) = false ->
  handleHashLookup (mkParams h) []
  = (Returns (errorResult ("Error hunting hash: " ++ errorText e)),
     fetchTrace h k result j f)
  /\ count isEvents (fetchTrace h k result j f) = S f.
Proof.
  intros Hwf Hc Hp Hs Hf Hbusy Hans H409. split; [ | apply count_fetchTrace ].
  apply Run_is_run; [ assumption | ].
  apply (FetchThrows R formatTimeAgo truncatePath h k result j s f e);
    auto using created_ends, settled_ends.
  - destruct Hp as (_ & _ & _ & Hrun). assumption.
  - repeat split; try assumption.
    intros [e' [He' H409']]. injection He' as <-. congruence.
Qed.

(** X8.  When creation succeeds after [k] busy attempts, the job settles in
    a state other than [FAILED] at poll [j] and the fetch succeeds after [f]
    busy attempts with a page that has events, the invocation returns the
    report over those events, without the error flag, after exactly [k + 1]
    creation calls, [j + 1] status calls and [f + 1] event fetches. *)
Theorem successful_hunt_reports_events (h : string) (k : nat)
    (result : DVQueryResponse) (j : nat) (s : DVQueryStatus) (f : nat)
    (page : PaginatedResponse) (ev : DVEvent) (rest : list DVEvent) :
  wellFormed h = true ->
  created k result ->
  settled j s ->
  status s <> "FAILED" ->
  fetched f page ->
  data page = Some (ev :: rest) ->
  handleHashLookup (mkParams h) []
  = (Returns (mkToolResult
                [TextContent (report formatTimeAgo truncatePath (hashFieldOf h) h
                                (queryId result) (ev :: rest) (pagination page))]
                false),
     fetchTrace h k result j f)
  /\ count isCreate (fetchTrace h k result j f) = S k
  /\ count isStatus (fetchTrace h k result j f) = S j
  /\ count isEvents (fetchTrace h k result j f) = S f.
Proof.
  intros Hwf Hc Hp Hs Hf Hdata. split; [ | apply count_fetchTrace ].
  apply Run_is_run; [ assumption | ].
  replace (mkToolResult _ false)
    with (present (hashFieldOf h) h result (Some page))
    by (unfold Hash.present; rewrite Hdata; reflexivity).
  apply (Presented R formatTimeAgo truncatePath h k result j s f (Some page));
    auto using created_ends, settled_ends, fetched_ends.
  destruct Hp as (_ & _ & _ & Hrun). assumption.
Qed.

(** *** Which hashes reach the platform *)

Lemma isHexDigit_chars (c : ascii) :
  isHexDigit c = true <-> In c (list_ascii_of_string "0123456789abcdefABCDEF").
Proof.
  assert (Hb : isHexDigit c
               = existsb (Ascii.eqb c) (list_ascii_of_string "0123456789abcdefABCDEF")).
  { destruct c as [[ | ] [ | ] [ | ] [ | ] [ | ] [ | ] [ | ] [ | ]]; reflexivity. }
  rewrite Hb, existsb_exists. split.
  - intros [c' [Hin Heq]]. apply Ascii.eqb_eq in Heq. subst. assumption.
  - intros Hin. exists c. split; [ assumption | apply Ascii.eqb_refl ].
Qed.

Lemma allHex_chars (h : string) :
  allHex h = true
  <-> Forall (fun c => In c (list_ascii_of_string "0123456789abcdefABCDEF"))
        (list_ascii_of_string h).
Proof.
  induction h as [ | c h IH]; simpl.
  - split; [ constructor | reflexivity ].
  - rewrite andb_true_iff, IH, isHexDigit_chars. split.
    + intros [Hc Hh]. constructor; assumption.
    + intros Hall. inversion Hall; subst. split; assumption.
Qed.

Lemma wellFormed_chars (h : string) :
  wellFormed h = true
  <-> (String.length h = 40 \/ String.length h = 64)
      /\ Forall (fun c => In c (list_ascii_of_string "0123456789abcdefABCDEF"))
           (list_ascii_of_string h).
Proof.
  unfold wellFormed. rewrite andb_true_iff, orb_true_iff, !Nat.eqb_eq.
  rewrite <- allHex_chars. unfold hexOnly.
  destruct h as [ | c h]; [ | tauto ].
  simpl. split; [ intros [_ Hf]; discriminate Hf | intros [[H | H] _]; discriminate H ].
Qed.

(** X9.  The handler calls the platform exactly for the hashes of 40 or 64
    characters that consist of the characters [0-9], [a-f] and [A-F] only;
    for every other input it performs no effect at all. *)
Theorem platform_is_called_iff_hash_is_hex (params : Params) :
  snd (handleHashLookup params []) <> []
  <-> (String.length (hash params) = 40 \/ String.length (hash params) = 64)
      /\ Forall (fun c => In c (list_ascii_of_string "0123456789abcdefABCDEF"))
           (list_ascii_of_string (hash params)).
Proof.
  rewrite <- wellFormed_chars. destruct params as [h]. cbn [hash].
  destruct (wellFormed h) eqn:Hwf.
  - destruct (every_run h Hwf) as (r & tr & -> & HRun). cbn [snd].
    destruct (Run_measures h r tr HRun) as (k & _ & _ & _ & _ & _ & Hcount & _).
    split; [ reflexivity | ].
    intros _ ->. unfold count in Hcount. simpl in Hcount. lia.
  - rewrite (malformed_trace (mkParams h) Hwf).
    split; [ intros Hne; contradiction Hne; reflexivity | discriminate ].
Qed.

(** *** The report and its lines *)

Lemma string_app_assoc (a b c : string) : (a ++ b) ++ c = a ++ b ++ c.
Proof.
  induction a as [ | x a IH]; simpl; [ reflexivity | rewrite IH; reflexivity ].
Qed.

Lemma nodup_length_le (l : list string) :
  length (nodup string_dec l) <= length l.
Proof.
  induction l as [ | x l IH]; simpl; [ lia | ].
  destruct (in_dec string_dec x l); simpl; lia.
Qed.

Lemma nodup_not_nil (x : string) (l : list string) :
  1 <= length (nodup string_dec (x :: l)).
Proof.
  assert (Hin : In x (nodup string_dec (x :: l)))
    by (apply nodup_In; left; reflexivity).
  destruct (nodup string_dec (x :: l)); [ contradiction | simpl; lia ].
Qed.

(** X10.  The report of a non-empty page opens with the hash line and the
    counts: the number of events of the page, and the number of endpoints,
    which is the number of distinct agent names among them (an event
    without one counts as [Unknown]) and so lies between 1 and the number
    of events. *)
Theorem report_counts_endpoints (hashField h queryId' : string) (ev : DVEvent)
    (rest : list DVEvent) (pagination : option Pagination) :
  exists endpoints lines,
    report formatTimeAgo truncatePath hashField h queryId' (ev :: rest) pagination
    = "Hash " ++ hashField ++ " " ++ h ++ newline
      ++ "Seen on " ++ showNat endpoints ++ " endpoint(s) | "
      ++ showNat (length (ev :: rest)) ++ " event(s) in last 14 days:"
      ++ newline ++ newline ++ lines
    /\ endpoints
       = length (nodup string_dec
                   (map (fun e => match agentName e with
                                  | Some (String c name) => String c name
                                  | _ => "Unknown"
                                  end) (ev :: rest)))
    /\ 1 <= endpoints <= length (ev :: rest).
Proof.
  eexists.
  exists (join newline (map (summarizeHashEvent formatTimeAgo truncatePath) (ev :: rest))
          ++ match pagination with
             | Some (mkPagination (Some (String c cursor)) _) =>
                 newline ++ newline
                 ++ "[More results - use s1_dv_get_events with queryId: "
                 ++ queryId' ++ ", cursor: " ++ String c cursor ++ "]"
             | _ => EmptyString
             end).
  split; [ | split; [ reflexivity | ] ].
  - unfold report. cbv zeta.
    rewrite !string_app_assoc. reflexivity.
  - split.
    + cbn [map]. apply nodup_not_nil.
    + etransitivity; [ apply nodup_length_le | ]. rewrite length_map. reflexivity.
Qed.

(** X11.  A summary line shows at most the first 80 characters of the
    command line, and shows [user] only when [processUser] is missing or
    empty: cutting the command line to 80 characters, or changing [user]
    under a non-empty [processUser], leaves the line as it is. *)
Theorem summary_cuts_command_and_prefers_processUser (e : DVEvent) :
  summarizeHashEvent formatTimeAgo truncatePath e
  = summarizeHashEvent formatTimeAgo truncatePath
      (mkDVEvent (eventTime e) (eventType e) (processName e) (agentName e)
         (processUser e) (user e) (filePath e)
         (option_map (slice0 80) (processCommandLine e)))
  /\ (forall c name other,
        processUser e = Some (String c name) ->
        summarizeHashEvent formatTimeAgo truncatePath e
        = summarizeHashEvent formatTimeAgo truncatePath
            (mkDVEvent (eventTime e) (eventType e) (processName e) (agentName e)
               (processUser e) other (filePath e) (processCommandLine e))).
Proof.
  assert (Hslice : forall n s, slice0 n (slice0 n s) = slice0 n s).
  { induction n as [ | n IH]; intros [ | c s]; simpl; try reflexivity.
    rewrite IH. reflexivity. }
  split.
  - unfold summarizeHashEvent. cbn [processCommandLine eventTime eventType
      processName agentName processUser user filePath].
    destruct (processCommandLine e) as [[ | c cmd] | ]; try reflexivity.
    cbn [option_map].
    change (slice0 80 (String c cmd)) with (String c (slice0 79 cmd)).
    cbv beta iota.
    change (slice0 80 (String c (slice0 79 cmd)))
      with (String c (slice0 79 (slice0 79 cmd))).
    rewrite Hslice. reflexivity.
  - intros c name other Hpu. unfold summarizeHashEvent.
    cbn [processCommandLine eventTime eventType processName agentName
         processUser user filePath].
    rewrite Hpu. reflexivity.
Qed.

End Runs.

(** *** The properties at sample invocations *)

Tactic Notation "prefix_of" integer(n) :=
  let i := fresh "i" in
  let Hi := fresh "Hi" in
  intros i Hi; do n (destruct i as [ | i]; [ eexists; split; reflexivity | ]); lia.

Lemma patient_created : created patientHunt 2 q1.
Proof.
  split; [ unfold maxCreateRetries; lia | split; [ prefix_of 2 | reflexivity ] ].
Defined.

Lemma patient_settled : settled patientHunt 2 finishedStatus.
Proof.
  split; [ unfold maxAttempts; lia
         | split; [ prefix_of 2 | split; [ reflexivity | discriminate ] ] ].
Defined.

Lemma patient_fetched : fetched patientHunt 1 twoEvents.
Proof.
  split; [ unfold maxFetchRetries; lia | split; [ prefix_of 1 | reflexivity ] ].
Defined.

Lemma empty_page_witness :
  fst (run nothingFound sha1Hash)
  = Returns (textResult
               ("No activity found for SHA1 " ++ sha1Hash ++ " in the last 14 days.")).
Proof.
  assert (Hcreated : created nothingFound 0 q1)
    by (split; [ unfold maxCreateRetries; lia | split; [ prefix_of 0 | reflexivity ] ]).
  assert (Hsettled : settled nothingFound 0 finishedStatus)
    by (split; [ unfold maxAttempts; lia
               | split; [ prefix_of 0 | split; [ reflexivity | discriminate ] ] ]).
  assert (Hnot : status finishedStatus <> "FAILED") by discriminate.
  assert (Hends : fetchEnds nothingFound 0 (Returns (Some emptyPage))).
  { split; [ unfold maxFetchRetries; lia | split; [ prefix_of 0 | split ] ].
    - reflexivity.
    - intros [e [He _]]. discriminate He. }
  destruct (empty_page_is_a_plain_result nothingFound sampleTimeAgo sampleTruncate
              (mkParams sha1Hash) 0 q1 0 finishedStatus 0 (Returns (Some emptyPage))
              eq_refl Hcreated Hsettled Hnot Hends)
    as [r [Hfst [Hempty _]]].
  destruct (Hempty emptyPage eq_refl eq_refl) as [-> _].
  exact Hfst.
Defined.

Lemma runs_witness :
  exists r tr,
    run patientHunt sha256Hash = (Returns r, tr)
    /\ Run patientHunt sampleTimeAgo sampleTruncate sha256Hash r tr.
Proof.
  eexists. eexists. split; [ reflexivity | ].
  apply (proj1 (runs_are_exactly_Run patientHunt sampleTimeAgo sampleTruncate
                  sha256Hash _ _ eq_refl)).
  reflexivity.
Defined.

Lemma calls_carry_witness :
  carries happyPath sha256Hash (GetDVEvents "q1" 50).
Proof.
  apply (calls_carry_hash_and_created_id happyPath sampleTimeAgo sampleTruncate
           (mkParams sha256Hash)).
  change (In (GetDVEvents "q1" 50) (snd (run happyPath sha256Hash))).
  rewrite HashProofs.happy_path_calls. simpl. auto 10.
Defined.

Lemma failed_job_witness :
  fst (run failedJob sha1Hash)
  = Returns (errorResult "DV hash query failed: Unknown error").
Proof.
  assert (Hcreated : created failedJob 0 q1)
    by (split; [ unfold maxCreateRetries; lia | split; [ prefix_of 0 | reflexivity ] ]).
  assert (Hsettled : settled failedJob 1 (mkDVQueryStatus "FAILED" (Some EmptyString)))
    by (split; [ unfold maxAttempts; lia
               | split; [ prefix_of 1 | split; [ reflexivity | discriminate ] ] ]).
  destruct (failed_job_is_reported failedJob sampleTimeAgo sampleTruncate sha1Hash
              0 q1 1 _ eq_refl Hcreated Hsettled eq_refl) as [Hrun _].
  unfold run. rewrite Hrun. reflexivity.
Defined.

Lemma poll_error_witness :
  fst (run pollBreaks sha1Hash)
  = Returns (errorResult "Error hunting hash: HTTP 409: Conflict - query slot in use")
  /\ count isStatus (snd (run pollBreaks sha1Hash)) = 2.
Proof.
  assert (Hcreated : created pollBreaks 0 q1)
    by (split; [ unfold maxCreateRetries; lia | split; [ prefix_of 0 | reflexivity ] ]).
  assert (Hrunning : forall i, i < 1 -> running (statusAnswer pollBreaks i))
    by prefix_of 1.
  assert (Hlt : 1 < maxAttempts) by (unfold maxAttempts; lia).
  destruct (poll_error_is_not_retried pollBreaks sampleTimeAgo sampleTruncate sha1Hash
              0 q1 1 conflict eq_refl Hcreated Hlt Hrunning eq_refl)
    as [Hrun [Hstatus _]].
  unfold run. rewrite Hrun. split; [ reflexivity | exact Hstatus ].
Defined.

Lemma fatal_fetch_witness :
  fst (run fetchBreaks sha1Hash)
  = Returns (errorResult "Error hunting hash: HTTP 500: Internal Server Error - boom")
  /\ count isEvents (snd (run fetchBreaks sha1Hash)) = 2.
Proof.
  assert (Hcreated : created fetchBreaks 0 q1)
    by (split; [ unfold maxCreateRetries; lia | split; [ prefix_of 0 | reflexivity ] ]).
  assert (Hsettled : settled fetchBreaks 0 finishedStatus)
    by (split; [ unfold maxAttempts; lia
               | split; [ prefix_of 0 | split; [ reflexivity | discriminate ] ] ]).
  assert (Hnot : status finishedStatus <> "FAILED") by discriminate.
  assert (Hbusy : forall i, i < 1 -> busy (eventsAnswer fetchBreaks i))
    by prefix_of 1.
  assert (Hlt : 1 < maxFetchRetries) by (unfold maxFetchRetries; lia).
  destruct (fatal_fetch_error_is_not_retried fetchBreaks sampleTimeAgo sampleTruncate
              sha1Hash 0 q1 0 finishedStatus 1 serverError
              eq_refl Hcreated Hsettled Hnot Hlt Hbusy eq_refl eq_refl)
    as [Hrun Hevents].
  unfold run. rewrite Hrun. split; [ reflexivity | exact Hevents ].
Defined.

Lemma successful_hunt_witness :
  isError_of_run patientHunt sha256Hash = Some false
  /\ count isCreate (snd (run patientHunt sha256Hash)) = 3
  /\ count isStatus (snd (run patientHunt sha256Hash)) = 3
  /\ count isEvents (snd (run patientHunt sha256Hash)) = 2.
Proof.
  assert (Hnot : status finishedStatus <> "FAILED") by discriminate.
  destruct (successful_hunt_reports_events patientHunt sampleTimeAgo sampleTruncate
              sha256Hash 2 q1 2 finishedStatus 1 twoEvents _ _
              eq_refl patient_created patient_settled Hnot patient_fetched eq_refl)
    as [Hrun [Hc [Hs He]]].
  unfold isError_of_run, run. rewrite Hrun.
  split; [ reflexivity | split; [ exact Hc | split; [ exact Hs | exact He ] ] ].
Defined.

End HashCoverage.

(** * More of the request layer: what a call returns, calls in series, and
      the client calls under the handler *)

Module ClientProofs.

Import Rest Client.

Lemma bound_not_elapsed (ms ms' : N) :
  (ms + ms' < TIMEOUT_MS)%N ->
  (TIMEOUT_MS <=? ms)%N = false /\ (TIMEOUT_MS <=? ms + ms')%N = false.
Proof. intros Hlt. split; apply N.leb_gt; lia. Qed.

(** X12.  A call returns a value exactly when the network answers in time
    with a status in 200-299 and a body that parses, and the value is that
    parsed body; in every other case it throws a plain [Error] (never the
    [AbortError] or the raw failure itself). *)
Theorem request_returns_only_timely_2xx {T} (san : Thrown -> string)
    (x : Exchange T) (t : Timers) :
  (forall v, fst (request san x t) = Returns v <-> timelyAnswer x v)
  /\ (forall e, fst (request san x t) = Throws e ->
                exists message, e = ErrorObj "Error" message).
Proof.
  rewrite RestProofs.request_classified. split.
  - intros v. split.
    + unfold classify, boundElapses, bodyReadMs.
      destruct x as [ms [response | e]].
      * destruct (ok response) eqn:Hok.
        -- destruct (json response) as [ms' [v' | e]] eqn:Hjson;
             destruct (TIMEOUT_MS <=? ms)%N eqn:H1;
             destruct (TIMEOUT_MS <=? ms + ms')%N eqn:H2; simpl;
             try discriminate.
           intros Heq. injection Heq as <-.
           exists ms, response, ms'. apply N.leb_gt in H2. auto.
        -- destruct (text response) as [ms' [b | e]];
             destruct (TIMEOUT_MS <=? ms)%N;
             destruct (TIMEOUT_MS <=? ms + ms')%N; simpl; discriminate.
      * destruct (TIMEOUT_MS <=? ms)%N; discriminate.
    + intros (ms & response & ms' & -> & Hok & Hjson & Hlt).
      destruct (bound_not_elapsed ms ms' Hlt) as [H1 H2].
      unfold classify, boundElapses, bodyReadMs. rewrite Hok, Hjson, H1, H2.
      reflexivity.
  - intros e. destruct (classify x) as [v | [ | code reason errorBody | cause]];
      simpl; intros Heq; [ discriminate | | | ];
      injection Heq as <-; eauto.
Qed.

Lemma wellNumbered_after {T} (san : Thrown -> string) (x : Exchange T) (t : Timers) :
  wellNumbered t ->
  pending (snd (request san x t)) = pending t
  /\ nextTimerId (snd (request san x t)) = S (nextTimerId t)
  /\ wellNumbered (snd (request san x t)).
Proof.
  intros Hwn. rewrite RestProofs.request_timers. cbn [pending nextTimerId].
  assert (Hsame : remove Nat.eq_dec (nextTimerId t) (pending t) = pending t).
  { apply notin_remove. intros Hin. apply Hwn in Hin. lia. }
  repeat split; try assumption.
  unfold wellNumbered. cbn [pending nextTimerId]. rewrite Hsame.
  intros id Hin. apply Hwn in Hin. lia.
Qed.

(** X13.  Calls awaited one after the other leave the timer table as they
    found it, however each of them ends: the pending timers are the same,
    and only the count of ids handed out has grown by the number of
    calls. *)
Theorem calls_in_series_leak_no_timer {T} (san : Thrown -> string)
    (xs : list (Exchange T)) (t : Timers) :
  wellNumbered t ->
  pending (requestAll san xs t) = pending t
  /\ nextTimerId (requestAll san xs t) = nextTimerId t + length xs
  /\ wellNumbered (requestAll san xs t).
Proof.
  revert t. induction xs as [ | x xs IH]; intros t Hwn; simpl.
  - repeat split; [ lia | assumption ].
  - destruct (wellNumbered_after san x t Hwn) as (Hp & Hn & Hwn').
    destruct (IH _ Hwn') as (Hp' & Hn' & Hwn'').
    rewrite Hp', Hp, Hn', Hn. repeat split; [ lia | assumption ].
Qed.

(** The outcome of each client call, from the outcome of [request]. *)
Lemma createDVQuery_outcome (san : Thrown -> string)
    (x : Exchange (Envelope (option DVQueryResponse))) (t : Timers) :
  fst (createDVQuery san x t)
  = match fst (request san x t) with
    | Returns response => Returns (data response)
    | Throws e => Throws e
    end.
Proof.
  unfold createDVQuery, bind, ret.
  destruct (request san x t) as [[response | e] t']; reflexivity.
Qed.

Lemma createDVQuery_busy (san : Thrown -> string)
    (x : Exchange (Envelope (option DVQueryResponse))) (t : Timers) :
  keeps409 san -> timely409 x -> Hash.busy (fst (createDVQuery san x t)).
Proof.
  intros Hkeep (ms & response & ms' & errorBody & Hx & Hstatus & Htext & Hlt).
  rewrite createDVQuery_outcome.
  assert (Hok : ok response = false) by (unfold ok; rewrite Hstatus; reflexivity).
  rewrite (RestProofs.request_http_error san x t ms response ms' errorBody Hx Hok Htext Hlt).
  eexists. split; [ reflexivity | ].
  cbn [errorText]. apply Hkeep. rewrite Hstatus. reflexivity.
Qed.

Lemma includes_app_r (needle a b : string) :
  includes needle b = true -> includes needle (a ++ b) = true.
Proof.
  intros Hb. induction a as [ | c a IH]; [ exact Hb | ].
  change (String c a ++ b) with (String c (a ++ b)).
  cbn [includes]. rewrite IH. apply orb_true_r.
Qed.

(** X17.  The busy test looks at the message text only: an HTTP error of
    any status whose body text carries [409] is taken for a busy slot by
    the creation loop, under a sanitizer that leaves the [409] in place. *)
Theorem error_body_with_409_reads_as_busy (san : Thrown -> string)
    (x : Exchange (Envelope (option DVQueryResponse))) (t : Timers)
    (ms : N) (response : Response (Envelope (option DVQueryResponse)))
    (ms' : N) (errorBody : string) :
  keeps409 san ->
  x = After ms (Returns response) ->
  ok response = false ->
  text response = After ms' (Returns errorBody) ->
  (ms + ms' < TIMEOUT_MS)%N ->
  includes "409" errorBody = true ->
  Hash.busy (fst (createDVQuery san x t)).
Proof.
  intros Hkeep Hx Hok Htext Hlt H409.
  rewrite createDVQuery_outcome.
  rewrite (RestProofs.request_http_error san x t ms response ms' errorBody Hx Hok Htext Hlt).
  eexists. split; [ reflexivity | ].
  cbn [errorText]. apply Hkeep. cbn [errorText].
  do 5 apply includes_app_r. exact H409.
Qed.

Lemma createDVQuery_answer (san : Thrown -> string)
    (x : Exchange (Envelope (option DVQueryResponse))) (t : Timers)
    (response : Envelope (option DVQueryResponse)) :
  timelyAnswer x response ->
  fst (createDVQuery san x t) = Returns (data response).
Proof.
  intros (ms & r & ms' & Hx & Hok & Hjson & Hlt).
  rewrite createDVQuery_outcome.
  rewrite (RestProofs.request_success san x t ms r ms' response Hx Hok Hjson Hlt).
  reflexivity.
Qed.

Lemma createDVQuery_timeout (san : Thrown -> string)
    (x : Exchange (Envelope (option DVQueryResponse))) (t : Timers) :
  boundElapses x = true ->
  fst (createDVQuery san x t)
  = Throws (ErrorObj "Error" "Request timeout after 30000ms").
Proof.
  intros Hb. rewrite createDVQuery_outcome.
  rewrite (RestProofs.request_timeout san x t Hb). reflexivity.
Qed.

Section Under.

Variable san : Thrown -> string.
Variable formatTimeAgo : string -> string.
Variable truncatePath : string -> nat -> string.
Variable net : Network.

Local Abbreviation handleHashLookup :=
  (Hash.handleHashLookup (remoteOf san net) formatTimeAgo truncatePath).

(** X14.  A creation call that runs into the 30-second bound ends the hunt
    at once, whatever the sanitizer: the timeout message carries no [409],
    so it is not retried, and it is returned as the hunting error. *)
Theorem creation_timeout_ends_hunt (h : string) (k : nat) :
  Hash.wellFormed h = true ->
  k < Hash.maxCreateRetries ->
  (forall i, i < k -> Hash.busy (Hash.createAnswer (remoteOf san net) i)) ->
  boundElapses (createExchange net k) = true ->
  handleHashLookup (Hash.mkParams h) []
  = (Returns (Hash.errorResult "Error hunting hash: Request timeout after 30000ms"),
     Hash.createTrace (remoteOf san net) h k).
Proof.
  intros Hwf Hk Hbusy Hb.
  apply HashCoverage.Run_is_run; [ assumption | ].
  apply (Hash.CreationThrows (remoteOf san net) formatTimeAgo truncatePath h k
           (ErrorObj "Error" "Request timeout after 30000ms")).
  repeat split; try assumption.
  - cbn [remoteOf Hash.createAnswer]. apply createDVQuery_timeout. assumption.
  - intros [e [He H409]]. injection He as <-. discriminate H409.
Qed.

(** X15.  A creation call answered in time with a 2xx body that has no
    [data] is reported as a busy query slot: this, and not a run of busy
    attempts, is what the slot-busy result stands for. *)
Theorem creation_without_data_reads_as_slot_busy (h : string) (k : nat) :
  Hash.wellFormed h = true ->
  k < Hash.maxCreateRetries ->
  (forall i, i < k -> Hash.busy (Hash.createAnswer (remoteOf san net) i)) ->
  timelyAnswer (createExchange net k) (mkEnvelope None) ->
  handleHashLookup (Hash.mkParams h) []
  = (Returns (Hash.errorResult
                "DV query slot busy - another query is still processing. Try again shortly."),
     Hash.createTrace (remoteOf san net) h k).
Proof.
  intros Hwf Hk Hbusy Hans.
  apply HashCoverage.Run_is_run; [ assumption | ].
  apply (Hash.CreationEmpty (remoteOf san net) formatTimeAgo truncatePath h k).
  repeat split; try assumption.
  - cbn [remoteOf Hash.createAnswer].
    apply (createDVQuery_answer san _ _ (mkEnvelope None)). assumption.
  - intros [e [He _]]. discriminate He.
Qed.

(** X16.  With a sanitizer that leaves the [409] of a message in place, an
    HTTP 409 answer to creation is the busy condition of the handler: after
    [k] such answers (fewer than 6) and a 2xx answer carrying [result], the
    creation has succeeded at attempt [k] in the sense of [created]. *)
Theorem http_409_is_the_busy_condition (k : nat) (result : DVQueryResponse) :
  keeps409 san ->
  k < Hash.maxCreateRetries ->
  (forall i, i < k -> timely409 (createExchange net i)) ->
  timelyAnswer (createExchange net k) (mkEnvelope (Some result)) ->
  Hash.created (remoteOf san net) k result.
Proof.
  intros Hkeep Hk H409 Hans. repeat split; [ assumption | | ].
  - intros i Hi. cbn [remoteOf Hash.createAnswer].
    apply createDVQuery_busy; auto.
  - cbn [remoteOf Hash.createAnswer].
    apply (createDVQuery_answer san _ _ (mkEnvelope (Some result))). assumption.
Qed.

End Under.

(** An HTTP error whose body text carries [409] is thrown by
    [createDVQuery] as an error that meets the busy test. *)
Lemma http_error_text_busy (san : Thrown -> string)
    (x : Exchange (Envelope (option DVQueryResponse))) (t : Timers)
    (ms : N) (response : Response (Envelope (option DVQueryResponse)))
    (ms' : N) (errorBody : string) :
  keeps409 san ->
  x = After ms (Returns response) ->
  ok response = false ->
  text response = After ms' (Returns errorBody) ->
  (ms + ms' < TIMEOUT_MS)%N ->
  includes "409" errorBody = true ->
  Hash.busy (fst (createDVQuery san x t)).
Proof.
  intros Hkeep Hx Hok Htext Hlt H409.
  rewrite createDVQuery_outcome.
  rewrite (RestProofs.request_http_error san x t ms response ms' errorBody Hx Hok Htext Hlt).
  eexists. split; [ reflexivity | ].
  cbn [errorText]. apply Hkeep. cbn [errorText].
  do 5 apply includes_app_r. exact H409.
Qed.

(** C5 (as stated) fails.  Every creation attempt is answered HTTP 502, an
    error that is not the HTTP 409 condition, with the body
    [upstream answered 409].  The first failure does not end the
    invocation: the message of the thrown error carries [409], so the
    attempt is repeated until the budget is used up, 6 creation calls and
    15 seconds of waiting in all, and only the last error is returned.
    The same 6 calls are made under every sanitizer that leaves a [409] of
    the message in place. *)
Lemma creation_error_other_than_409_is_retried :
  (forall n, exists ms response,
      createExchange gatewayNetwork n = After ms (Returns response)
      /\ status response = 502%N)
  /\ fst (Hash.run (remoteOf plainSanitizer gatewayNetwork) Hash.sha1Hash)
     = Returns (Hash.errorResult
                  "Error hunting hash: HTTP 502: Bad Gateway - upstream answered 409")
  /\ Hash.count Hash.isCreate
       (snd (Hash.run (remoteOf plainSanitizer gatewayNetwork) Hash.sha1Hash)) = 6
  /\ Hash.waited
       (snd (Hash.run (remoteOf plainSanitizer gatewayNetwork) Hash.sha1Hash)) = 15000%N
  /\ (forall san : Thrown -> string,
        keeps409 san ->
        Hash.count Hash.isCreate
          (snd (Hash.run (remoteOf san gatewayNetwork) Hash.sha1Hash)) = 6).
Proof.
  split; [ | split; [ | split; [ | split ] ] ].
  - intros n. eexists. eexists. split; reflexivity.
  - reflexivity.
  - reflexivity.
  - reflexivity.
  - intros san Hkeep.
    assert (Hbusy : forall i,
               Hash.busy (Hash.createAnswer (remoteOf san gatewayNetwork) i)).
    { intros i. cbn [remoteOf Hash.createAnswer createExchange gatewayNetwork].
      apply (http_error_text_busy san upstream409 noTimers
               90 _ 4 "upstream answered 409" Hkeep eq_refl eq_refl eq_refl);
        reflexivity. }
    destruct (Hbusy (Hash.maxCreateRetries - 1)) as [e [He _]].
    unfold Hash.run.
    rewrite (HashProofs.create_exhaustion_propagates (remoteOf san gatewayNetwork)
               Hash.sampleTimeAgo Hash.sampleTruncate (Hash.mkParams Hash.sha1Hash) e
               eq_refl (fun i _ => Hbusy i) He).
    reflexivity.
Qed.

(** *** The properties at sample networks *)

Lemma calls_in_series_witness :
  pending (requestAll plainSanitizer [http200; http500; stalled] oneForeignTimer) = [0]
  /\ nextTimerId (requestAll plainSanitizer [http200; http500; stalled] oneForeignTimer) = 4.
Proof.
  assert (Hwn : wellNumbered oneForeignTimer).
  { intros id [<- | []]. unfold oneForeignTimer. cbn [nextTimerId]. lia. }
  destruct (calls_in_series_leak_no_timer plainSanitizer
              [http200; http500; stalled] oneForeignTimer Hwn) as (Hp & Hn & _).
  split; [ exact Hp | exact Hn ].
Defined.

Lemma creation_timeout_witness :
  fst (Hash.run (remoteOf plainSanitizer deadNetwork) Hash.sha1Hash)
  = Returns (Hash.errorResult "Error hunting hash: Request timeout after 30000ms").
Proof.
  assert (Hk : 0 < Hash.maxCreateRetries) by (unfold Hash.maxCreateRetries; lia).
  assert (Hbusy : forall i, i < 0 ->
            Hash.busy (Hash.createAnswer (remoteOf plainSanitizer deadNetwork) i))
    by (intros i Hi; lia).
  unfold Hash.run.
  rewrite (creation_timeout_ends_hunt plainSanitizer Hash.sampleTimeAgo
             Hash.sampleTruncate deadNetwork Hash.sha1Hash 0 eq_refl Hk Hbusy eq_refl).
  reflexivity.
Defined.

Lemma hollow_answer :
  timelyAnswer (createExchange hollowNetwork 0)
    (mkEnvelope (@None DVQueryResponse)).
Proof.
  eexists. eexists. eexists.
  split; [ reflexivity | split; [ reflexivity | split; reflexivity ] ].
Defined.

Lemma creation_without_data_witness :
  fst (Hash.run (remoteOf plainSanitizer hollowNetwork) Hash.sha1Hash)
  = Returns (Hash.errorResult
               "DV query slot busy - another query is still processing. Try again shortly.").
Proof.
  assert (Hk : 0 < Hash.maxCreateRetries) by (unfold Hash.maxCreateRetries; lia).
  assert (Hbusy : forall i, i < 0 ->
            Hash.busy (Hash.createAnswer (remoteOf plainSanitizer hollowNetwork) i))
    by (intros i Hi; lia).
  unfold Hash.run.
  rewrite (creation_without_data_reads_as_slot_busy plainSanitizer Hash.sampleTimeAgo
             Hash.sampleTruncate hollowNetwork Hash.sha1Hash 0 eq_refl Hk Hbusy
             hollow_answer).
  reflexivity.
Defined.

Lemma error_body_with_409_witness :
  Hash.busy (fst (createDVQuery plainSanitizer upstream409 noTimers)).
Proof.
  assert (Hkeep : keeps409 plainSanitizer) by (intros e He; exact He).
  assert (Hlt : (90 + 4 < TIMEOUT_MS)%N) by reflexivity.
  exact (error_body_with_409_reads_as_busy plainSanitizer upstream409 noTimers
           90 _ 4 "upstream answered 409" Hkeep eq_refl eq_refl eq_refl Hlt eq_refl).
Defined.

Lemma http_409_witness :
  Hash.created (remoteOf plainSanitizer contendedNetwork) 2 Hash.q1.
Proof.
  assert (Hkeep : keeps409 plainSanitizer) by (intros e He; exact He).
  assert (Hk : 2 < Hash.maxCreateRetries) by (unfold Hash.maxCreateRetries; lia).
  assert (H409 : forall i, i < 2 -> timely409 (createExchange contendedNetwork i)).
  { intros i Hi.
    do 2 (destruct i as [ | i];
          [ do 4 eexists;
            split; [ reflexivity | split; [ reflexivity | split; reflexivity ] ] | ]).
    lia. }
  assert (Hans : timelyAnswer (createExchange contendedNetwork 2)
                   (mkEnvelope (Some Hash.q1))).
  { do 3 eexists.
    split; [ reflexivity | split; [ reflexivity | split; reflexivity ] ]. }
  exact (http_409_is_the_busy_condition plainSanitizer contendedNetwork 2 Hash.q1
           Hkeep Hk H409 Hans).
Defined.

End ClientProofs.
